(** * Provider dispatch and fallback normalisation of [main.py]

    A shallow embedding of the two generation endpoints of [main.py]
    ([generate_images] and [generate_video]), of the request and response
    models they use, and of the part of the Python runtime they rely on,
    followed by the properties of the dispatch / fallback logic. *)

From Stdlib Require Import ZArith List String Ascii Bool Lia.
From Stdlib Require Import Floats DecimalString DecimalZ.
Import ListNotations.

Local Open Scope string_scope.
Local Open Scope Z_scope.

(** ** Python values and the few built-ins the endpoints use *)

Module Py.

(** What [r.json()] can return, and what the local variables [urls],
    [images] and [video_url] can therefore hold.  A Python [str] is
    modelled by its UTF-8 encoding, one [ascii] per byte, so that a
    character takes one to four of them ([len] and [take] below count
    characters); a [dict] by its items, looked up by key. *)
#[local] Set Warnings "-register-all".
Inductive pyval : Type :=
| PyNone
| PyBool (b : bool)
| PyInt (z : Z)
| PyFloat (f : float)
| PyStr (s : string)
| PyList (l : list pyval)
| PyDict (d : list (string * pyval)).
#[local] Set Warnings "register-all".

(** [bool(v)], the test behind [if v:], [not v] and [a or b]. *)
Definition truthy (v : pyval) : bool :=
  match v with
  | PyNone => false
  | PyBool b => b
  | PyInt z => negb (z =? 0)
  | PyFloat f => negb (PrimFloat.eqb f PrimFloat.zero)
  | PyStr s => negb (s =? "")%string
  | PyList l => match l with [] => false | _ :: _ => true end
  | PyDict d => match d with [] => false | _ :: _ => true end
  end.

(** [a or b] *)
Definition py_or (a b : pyval) : pyval := if truthy a then a else b.

Definition isinstance_dict (v : pyval) : bool :=
  match v with PyDict _ => true | _ => false end.

Definition isinstance_list (v : pyval) : bool :=
  match v with PyList _ => true | _ => false end.

Fixpoint lookup (k : string) (d : list (string * pyval)) : option pyval :=
  match d with
  | [] => None
  | (k', v) :: d' => if (k' =? k)%string then Some v else lookup k d'
  end.

(** [k in v], for [v] a dict. *)
Definition contains (v : pyval) (k : string) : bool :=
  match v with
  | PyDict d => match lookup k d with Some _ => true | None => false end
  | _ => false
  end.

(** [v.get(k)]: [None] when the key is missing.  The source calls it on
    values it has tested with [isinstance(_, dict)] only. *)
Definition get (v : pyval) (k : string) : pyval :=
  match v with
  | PyDict d => match lookup k d with Some x => x | None => PyNone end
  | _ => PyNone
  end.

(** [v[k]], called in the source after [k in v] only. *)
Definition getitem (v : pyval) (k : string) : pyval := get v k.

(** [l[:n]]: a negative [n] counts from the end. *)
Definition slice_to {A : Type} (l : list A) (n : Z) : list A :=
  if 0 <=? n then firstn (Z.to_nat n) l
  else firstn (List.length l - Z.to_nat (- n)) l.

(** [range(n)] *)
Definition range (n : Z) : list Z := map Z.of_nat (seq 0 (Z.to_nat n)).

(** [str(n)] for an [int]. *)
Definition str (n : Z) : string := NilZero.string_of_int (Z.to_int n).

(** A byte [10xxxxxx] continues the character begun before it; every other
    byte begins a character. *)
Definition is_continuation (c : ascii) : bool :=
  match c with
  | Ascii _ _ _ _ _ _ false true => true
  | _ => false
  end.

(** [len(s)]: the number of characters of [s]. *)
Fixpoint len (s : string) : nat :=
  match s with
  | EmptyString => 0%nat
  | String c s' => if is_continuation c then len s' else S (len s')
  end.

(** [s.replace(old, new)] for [old] and [new] of one ASCII character each
    (their byte occurs in the encoding of no other character). *)
Fixpoint replace (old new : ascii) (s : string) : string :=
  match s with
  | EmptyString => EmptyString
  | String c s' =>
      String (if Ascii.eqb c old then new else c) (replace old new s')
  end.

(** [s[:n]] for a literal [n >= 0]: the first [n] characters, each with
    all its bytes. *)
Fixpoint take (n : nat) (s : string) : string :=
  match s with
  | EmptyString => EmptyString
  | String c s' =>
      if is_continuation c then String c (take n s')
      else match n with
           | O => EmptyString
           | S n' => String c (take n' s')
           end
  end.

End Py.
Import Py.

(** ** Exceptions, and computations that may raise and that call the provider *)

Inductive exn : Type :=
| RequestException        (* [requests.post] failed: network, timeout, encoding *)
| JSONDecodeError         (* [r.json()] on a body that is not JSON *)
| RequestValidationError  (* the request body violates the request model *)
| ValidationError.        (* a response model rejects a field value *)

Record http_request : Type := {
  rq_url : string;
  rq_json : pyval;
  rq_headers : list (string * string);
  rq_timeout : Z
}.

(** The [Response] object: [json = None] when [r.json()] raises. *)
Record http_response : Type := {
  status_code : Z;
  json : option pyval
}.

(** A computation threads the log of provider calls made so far and ends
    with a value or an exception. *)
Definition M (A : Type) : Type :=
  list http_request -> (exn + A) * list http_request.

Definition ret {A : Type} (a : A) : M A := fun log => (inr a, log).

Definition raise {A : Type} (e : exn) : M A := fun log => (inl e, log).

Definition bind {A B : Type} (m : M A) (k : A -> M B) : M B :=
  fun log =>
    match m log with
    | (inr a, log') => k a log'
    | (inl e, log') => (inl e, log')
    end.

(** [try: body  except Exception: handler] *)
Definition try_except {A : Type} (body handler : M A) : M A :=
  fun log =>
    match body log with
    | (inr a, log') => (inr a, log')
    | (inl _, log') => handler log'
    end.

Definition run {A : Type} (m : M A) : (exn + A) * list http_request := m [].

Notation "x <- m ;; k" := (bind m (fun x => k))
  (at level 61, m at next level, right associativity).
Notation "' pat <- m ;; k" := (bind m (fun x => match x with pat => k end))
  (at level 61, pat pattern, m at next level, right associativity).

(** ** What the process finds around it *)

(** The environment variables, the string hash of this interpreter run, the
    provider behind [requests.post], and pydantic's URL parser. *)
Record Runtime : Type := {
  getenv : string -> option string;
  hash : string -> Z;
  keyai : http_request -> option http_response;  (* [None]: the call raised *)
  is_HttpUrl : string -> bool
}.

Section Process.

Variable rt : Runtime.

Definition KEYAI_API_KEY : option string := getenv rt "KEYAI_API_KEY".

Definition KEYAI_BASE : string :=
  match getenv rt "KEYAI_BASE" with
  | Some s => s
  | None => "https://api.key.ai"
  end.

(** [if KEYAI_API_KEY:] *)
Definition configured : bool :=
  match KEYAI_API_KEY with
  | Some s => negb (s =? "")%string
  | None => false
  end.

Definition api_key : string :=
  match KEYAI_API_KEY with Some s => s | None => "None" end.

Definition requests_post (url : string) (payload : pyval)
    (headers : list (string * string)) (timeout : Z) : M http_response :=
  fun log =>
    let rq := {| rq_url := url; rq_json := payload;
                 rq_headers := headers; rq_timeout := timeout |} in
    (match keyai rt rq with
     | Some r => inr r
     | None => inl RequestException
     end, (log ++ [rq])%list).

Definition r_json (r : http_response) : M pyval :=
  match json r with
  | Some v => ret v
  | None => raise JSONDecodeError
  end.

End Process.

(** ** The request and response models *)

Record ImageGenRequest : Type := {
  prompt : string;
  count : Z;
  style : option string;
  references : option (list string)
}.

Record ImageGenResponse : Type := {
  job_id : string;
  images : list string;
  provider : string
}.

Record VideoGenRequest : Type := {
  script : string;
  aspect_ratio : string;
  duration_seconds : Z;
  voice : option string;
  tone : option string;
  video_references : option (list string)
}.

Record VideoGenResponse : Type := {
  v_job_id : string;
  video_url : string;
  v_provider : string
}.

(** The fields of a request body as they arrive; [None] is a field the
    caller left out. *)
Record ImageGenBody : Type := {
  body_prompt : option string;
  body_count : option Z;
  body_style : option string;
  body_references : option (list string)
}.

Record VideoGenBody : Type := {
  body_script : option string;
  body_aspect_ratio : option string;
  body_duration_seconds : option Z;
  body_voice : option string;
  body_tone : option string;
  body_video_references : option (list string)
}.

Definition with_default {A : Type} (d : A) (o : option A) : A :=
  match o with Some a => a | None => d end.

(** [Field(..., min_length=n)] on a [str] *)
Definition min_length (n : nat) (s : string) : bool :=
  (n <=? len s)%nat.

(** [Field(_, ge=lo, le=hi)] on an [int] *)
Definition ge_le (lo hi : Z) (z : Z) : bool := (lo <=? z) && (z <=? hi).

(** [Optional[List[HttpUrl]]] *)
Definition urls_ok (rt : Runtime) (o : option (list string)) : bool :=
  match o with
  | None => true
  | Some l => forallb (is_HttpUrl rt) l
  end.

(** The checks of class [ImageGenRequest]. *)
Definition ImageGenRequest_validate (rt : Runtime) (b : ImageGenBody)
  : exn + ImageGenRequest :=
  match body_prompt b with
  | None => inl RequestValidationError
  | Some p =>
      let c := with_default 10 (body_count b) in
      if min_length 3 p && ge_le 1 50 c && urls_ok rt (body_references b)
      then inr {| prompt := p; count := c; style := body_style b;
                  references := body_references b |}
      else inl RequestValidationError
  end.

(** The checks of class [VideoGenRequest]. *)
Definition VideoGenRequest_validate (rt : Runtime) (b : VideoGenBody)
  : exn + VideoGenRequest :=
  match body_script b with
  | None => inl RequestValidationError
  | Some s =>
      let d := with_default 8 (body_duration_seconds b) in
      if min_length 3 s && ge_le 4 30 d
         && urls_ok rt (body_video_references b)
      then inr {| script := s;
                  aspect_ratio := with_default "9:16" (body_aspect_ratio b);
                  duration_seconds := d;
                  voice := body_voice b; tone := body_tone b;
                  video_references := body_video_references b |}
      else inl RequestValidationError
  end.

(** A field declared [str] takes a [str].  (Older pydantic releases also
    turn numbers into text; lists, dicts and [None] are refused by all.) *)
Definition as_str (v : pyval) : option string :=
  match v with PyStr s => Some s | _ => None end.

(** A field declared [List[str]]. *)
Fixpoint as_str_list (l : list pyval) : option (list string) :=
  match l with
  | [] => Some []
  | v :: l' =>
      match as_str v, as_str_list l' with
      | Some s, Some ss => Some (s :: ss)
      | _, _ => None
      end
  end.

(** [ImageGenResponse(job_id=.., images=.., provider=..)] *)
Definition new_ImageGenResponse (job : string) (imgs : list pyval)
    (prov : string) : M ImageGenResponse :=
  match as_str_list imgs with
  | Some l => ret {| job_id := job; images := l; provider := prov |}
  | None => raise ValidationError
  end.

(** [VideoGenResponse(job_id=.., video_url=.., provider=..)] *)
Definition new_VideoGenResponse (job : string) (url : pyval)
    (prov : string) : M VideoGenResponse :=
  match as_str url with
  | Some u => ret {| v_job_id := job; video_url := u;
                     v_provider := prov |}
  | None => raise ValidationError
  end.

(** ** The endpoints *)

Definition opt_str (o : option string) : pyval :=
  match o with Some s => PyStr s | None => PyNone end.

(** [req.references or []] *)
Definition references_or_empty (o : option (list string)) : pyval :=
  match o with
  | Some (u :: l) => PyList (map PyStr (u :: l))
  | _ => PyList []
  end.

Definition nonempty {A : Type} (l : list A) : bool :=
  match l with [] => false | _ :: _ => true end.

(** The comprehension
    [[x.get("url") for x in l if isinstance(x, dict) and x.get("url")]]. *)
Definition url_fields (l : list pyval) : list pyval :=
  map (fun x => get x "url")
      (filter (fun x => isinstance_dict x && truthy (get x "url")) l).

(** Lines 121-127 of [generate_images]: the value of [urls] for a parsed
    body [data]. *)
Definition extract_image_urls (data : pyval) : list pyval :=
  if isinstance_dict data then
    if contains data "images" && isinstance_list (getitem data "images") then
      match getitem data "images" with
      | PyList l => url_fields l
      | _ => []
      end
    else if contains data "data" && isinstance_list (getitem data "data") then
      match getitem data "data" with
      | PyList l => url_fields l
      | _ => []
      end
    else []
  else [].

(** Lines 169-172 of [generate_video]: the value of [video_url] for a parsed
    body [data]. *)
Definition extract_video_url (data : pyval) : pyval :=
  if isinstance_dict data then
    let video_url :=
      py_or (py_or (get data "url") (get data "video_url")) (PyStr "") in
    if negb (truthy video_url) && contains data "data"
       && isinstance_dict (getitem data "data")
    then py_or (py_or (get (getitem data "data") "url")
                      (get (getitem data "data") "video_url")) (PyStr "")
    else video_url
  else PyStr "".

Definition picsum_url (seed_base : string) (i : Z) : string :=
  "https://picsum.photos/seed/" ++ seed_base ++ "-" ++ str i ++ "/768/1024".

Definition seed_of (p : string) : string := take 40 (replace " " "+" p).

(** Lines 137-140: the placeholder images. *)
Definition mock_images (req : ImageGenRequest) : list pyval :=
  let seed_base := seed_of (prompt req) in
  map (fun i => PyStr (picsum_url seed_base i)) (range (count req)).

Definition demo_video : string :=
  "https://interactive-examples.mdn.mozilla.net/media/cc0-videos/flower.mp4".

Section Endpoints.

Variable rt : Runtime.

Definition bearer_headers : list (string * string) :=
  [("Authorization", "Bearer " ++ api_key rt);
   ("Content-Type", "application/json")].

Definition image_payload (req : ImageGenRequest) : pyval :=
  PyDict [("model", PyStr "nano-banana");
          ("input", PyDict [("prompt", PyStr (prompt req));
                            ("num_images", PyInt (count req));
                            ("style", opt_str (style req));
                            ("references",
                             references_or_empty (references req))])].

Definition video_payload (req : VideoGenRequest) : pyval :=
  PyDict [("model", PyStr "veo-3.1");
          ("input", PyDict [("script", PyStr (script req));
                            ("aspect_ratio", PyStr (aspect_ratio req));
                            ("duration", PyInt (duration_seconds req));
                            ("voice", opt_str (voice req));
                            ("tone", opt_str (tone req));
                            ("references",
                             references_or_empty (video_references req))])].

(** Lines 104-133: the values of [provider] and [images] after the provider
    block. *)
Definition image_provider_block (req : ImageGenRequest)
  : M (string * list pyval) :=
  let provider := "mock" in
  let images := [] in
  if configured rt then
    try_except
      (r <- requests_post rt (KEYAI_BASE rt ++ "/v1/images/generate")
              (image_payload req) bearer_headers 60 ;;
       if status_code r =? 200 then
         data <- r_json r ;;
         let urls := extract_image_urls data in
         if nonempty urls
         then ret ("key.ai:nano-banana", slice_to urls (count req))
         else ret (provider, images)
       else ret (provider, images))
      (ret (provider, images))
  else ret (provider, images).

Definition generate_images (req : ImageGenRequest) : M ImageGenResponse :=
  '(provider, images) <- image_provider_block req ;;
  let images := if nonempty images then images else mock_images req in
  new_ImageGenResponse
    ("job_img_" ++ str (Z.abs (hash rt (prompt req)) mod 10000000))
    images provider.

(** Lines 151-176: the values of [provider] and [video_url] after the
    provider block. *)
Definition video_provider_block (req : VideoGenRequest) : M (string * pyval) :=
  let provider := "mock" in
  let video_url := PyStr "" in
  if configured rt then
    try_except
      (r <- requests_post rt (KEYAI_BASE rt ++ "/v1/video/generate")
              (video_payload req) bearer_headers 120 ;;
       if status_code r =? 200 then
         data <- r_json r ;;
         let video_url := extract_video_url data in
         if truthy video_url
         then ret ("key.ai:veo-3.1", video_url)
         else ret (provider, video_url)
       else ret (provider, video_url))
      (ret (provider, video_url))
  else ret (provider, video_url).

Definition generate_video (req : VideoGenRequest) : M VideoGenResponse :=
  '(provider, video_url) <- video_provider_block req ;;
  let video_url := if truthy video_url then video_url else PyStr demo_video in
  new_VideoGenResponse
    ("job_vid_" ++ str (Z.abs (hash rt (script req)) mod 10000000))
    video_url provider.

(** The routes: the body is checked against the request model before the
    function is entered. *)
Definition post_generate_images (b : ImageGenBody) : M ImageGenResponse :=
  match ImageGenRequest_validate rt b with
  | inr req => generate_images req
  | inl e => raise e
  end.

Definition post_generate_video (b : VideoGenBody) : M VideoGenResponse :=
  match VideoGenRequest_validate rt b with
  | inr req => generate_video req
  | inl e => raise e
  end.

End Endpoints.

(** ** The other routes *)

(** [subscribe]: the request model and the error it raises. *)
Record SubscribeRequest : Type := {
  plan : string;
  email : option string
}.

Record HTTPException : Type := {
  exc_status_code : Z;
  exc_detail : string
}.

(** The plans of the set literal in [subscribe]. *)
Definition plans : list string := ["Free"; "Creator"; "Pro"].

Definition subscribe (req : SubscribeRequest) : HTTPException + pyval :=
  if negb (existsb (String.eqb (plan req)) plans)
  then inl {| exc_status_code := 400; exc_detail := "Invalid plan" |}
  else inr (PyDict [("status", PyStr "ok");
                    ("message", PyStr ("Subscribed to " ++ plan req));
                    ("email", opt_str (email req))]).

(** [test_database]: what [from database import db] can do, and the object
    it can bind.  [db.name] may be missing, present, or raise something
    that [hasattr] does not absorb; [db.list_collection_names()] and the
    slice of its result end with the names or with an exception, of which
    the message is kept. *)
Inductive attribute : Type :=
| NoAttribute
| Attribute (v : pyval)
| AttributeRaises (msg : string).

Record database_handle : Type := {
  db_name : attribute;
  db_list_collection_names : string + list string
}.

Inductive database_import : Type :=
| ModuleNotFound                    (* [ImportError] *)
| ImportRaises (msg : string)       (* any other exception *)
| DbIsNone
| DbObject (db : database_handle).

(** The dict [response] of [test_database]. *)
Record status_response : Type := {
  backend : string;
  database : string;
  database_url : pyval;
  database_name : pyval;
  connection_status : string;
  collections : list string
}.

Definition set_database (v : string) (r : status_response) :=
  {| backend := backend r; database := v; database_url := database_url r;
     database_name := database_name r;
     connection_status := connection_status r;
     collections := collections r |}.

Definition set_database_url (v : pyval) (r : status_response) :=
  {| backend := backend r; database := database r; database_url := v;
     database_name := database_name r;
     connection_status := connection_status r;
     collections := collections r |}.

Definition set_database_name (v : pyval) (r : status_response) :=
  {| backend := backend r; database := database r;
     database_url := database_url r; database_name := v;
     connection_status := connection_status r;
     collections := collections r |}.

Definition set_connection_status (v : string) (r : status_response) :=
  {| backend := backend r; database := database r;
     database_url := database_url r; database_name := database_name r;
     connection_status := v; collections := collections r |}.

Definition set_collections (v : list string) (r : status_response) :=
  {| backend := backend r; database := database r;
     database_url := database_url r; database_name := database_name r;
     connection_status := connection_status r; collections := v |}.

(** [if os.getenv(k)] *)
Definition env_set (rt : Runtime) (k : string) : bool :=
  match getenv rt k with
  | Some s => negb (s =? "")%string
  | None => false
  end.

Definition test_database (rt : Runtime) (imp : database_import)
  : status_response :=
  let response :=
    {| backend := "✅ Running"; database := "❌ Not Available";
       database_url := PyNone; database_name := PyNone;
       connection_status := "Not Connected"; collections := [] |} in
  let response :=
    match imp with
    | DbObject db =>
        let response := set_database "✅ Available" response in
        let response := set_database_url (PyStr "✅ Configured") response in
        match db_name db with
        | AttributeRaises msg =>
            set_database ("❌ Error: " ++ take 50 msg) response
        | name =>
            let response :=
              set_database_name
                (match name with
                 | Attribute v => v
                 | _ => PyStr "✅ Connected"
                 end) response in
            let response := set_connection_status "Connected" response in
            match db_list_collection_names db with
            | inr names =>
                let response :=
                  set_collections (slice_to names 10) response in
                set_database "✅ Connected & Working" response
            | inl msg =>
                set_database ("⚠️  Connected but Error: " ++ take 50 msg)
                  response
            end
        end
    | DbIsNone => set_database "⚠️  Available but not initialized" response
    | ModuleNotFound =>
        set_database
          "❌ Database module not found (run enable-database first)" response
    | ImportRaises msg => set_database ("❌ Error: " ++ take 50 msg) response
    end in
  let response :=
    set_database_url
      (PyStr (if env_set rt "DATABASE_URL" then "✅ Set" else "❌ Not Set"))
      response in
  set_database_name
    (PyStr (if env_set rt "DATABASE_NAME" then "✅ Set" else "❌ Not Set"))
    response.

(** ** Vocabulary of the statements *)

(** The constraints of the request models, on a request that passed them. *)
Definition valid_image_request (req : ImageGenRequest) : Prop :=
  (3 <= len (prompt req))%nat /\ 1 <= count req <= 50.

Definition valid_video_request (req : VideoGenRequest) : Prop :=
  (3 <= len (script req))%nat /\ 4 <= duration_seconds req <= 30.

(** The placeholder URLs as the response carries them. *)
Definition mock_urls (req : ImageGenRequest) : list string :=
  map (picsum_url (seed_of (prompt req))) (range (count req)).

Definition image_job_id (rt : Runtime) (req : ImageGenRequest) : string :=
  "job_img_" ++ str (Z.abs (hash rt (prompt req)) mod 10000000).

Definition video_job_id (rt : Runtime) (req : VideoGenRequest) : string :=
  "job_vid_" ++ str (Z.abs (hash rt (script req)) mod 10000000).

(** The one call each endpoint makes when a credential is configured. *)
Definition image_call (rt : Runtime) (req : ImageGenRequest) : http_request :=
  {| rq_url := KEYAI_BASE rt ++ "/v1/images/generate";
     rq_json := image_payload req;
     rq_headers := bearer_headers rt;
     rq_timeout := 60 |}.

Definition video_call (rt : Runtime) (req : VideoGenRequest) : http_request :=
  {| rq_url := KEYAI_BASE rt ++ "/v1/video/generate";
     rq_json := video_payload req;
     rq_headers := bearer_headers rt;
     rq_timeout := 120 |}.

(** The URLs one recognized shape contributes: the [url] fields of the list
    found under [key], or nothing when [key] does not hold a list. *)
Definition shape_urls (key : string) (data : pyval) : list pyval :=
  match data with
  | PyDict d =>
      match lookup key d with
      | Some (PyList l) => url_fields l
      | _ => []
      end
  | _ => []
  end.

Definition shape_present (key : string) (data : pyval) : bool :=
  match data with
  | PyDict d =>
      match lookup key d with
      | Some (PyList _) => true
      | _ => false
      end
  | _ => false
  end.

(** Image extraction as the specification words it: the shapes are tried in
    order until one yields at least one non-empty URL. *)
Definition extract_images_until_nonempty (data : pyval) : list pyval :=
  if nonempty (shape_urls "images" data) then shape_urls "images" data
  else shape_urls "data" data.

(** A runtime with no environment variable set and a provider that is never
    reached, and one with a credential and a provider that answers every
    call with [status] and [body]. *)
Definition offline : Runtime :=
  {| getenv := fun _ => None;
     hash := fun s => Z.of_nat (String.length s) - 7;
     keyai := fun _ => None;
     is_HttpUrl := fun _ => true |}.

Definition answering (status : Z) (body : option pyval) : Runtime :=
  {| getenv := fun k => if (k =? "KEYAI_API_KEY")%string then Some "sk-test"
                        else None;
     hash := fun s => Z.of_nat (String.length s) - 7;
     keyai := fun _ => Some {| status_code := status; json := body |};
     is_HttpUrl := fun _ => true |}.

Definition cat_request (n : Z) : ImageGenRequest :=
  {| prompt := "a cat in space"; count := n; style := None;
     references := None |}.

Definition hello_request : VideoGenRequest :=
  {| script := "hello world"; aspect_ratio := "9:16"; duration_seconds := 8;
     voice := None; tone := None; video_references := None |}.

(** A second process without a usable credential: the variable is set but
    empty, and strings hash differently. *)
Definition blank_key : Runtime :=
  {| getenv := fun k => if (k =? "KEYAI_API_KEY")%string then Some ""
                        else None;
     hash := fun s => 12345678901 + Z.of_nat (String.length s);
     keyai := fun _ => Some {| status_code := 200; json := None |};
     is_HttpUrl := fun _ => false |}.

(** Provider bodies used below. *)
Definition images_only : pyval :=
  PyDict [("images", PyList [PyDict [("url", PyStr "a")]])].

Definition data_only : pyval :=
  PyDict [("data", PyList [PyDict [("url", PyStr "b")]])].

Definition images_blank_then_data : pyval :=
  PyDict [("images", PyList [PyDict [("url", PyStr "")]]);
          ("data", PyList [PyDict [("url", PyStr "b")]])].

Definition image_url_is_a_list : pyval :=
  PyDict [("images", PyList [PyDict [("url", PyList [PyInt 1])]])].

Definition video_url_is_a_list : pyval :=
  PyDict [("url", PyList [PyInt 1])].

Definition three_urls : pyval :=
  PyDict [("images", PyList [PyDict [("url", PyStr "u1")];
                             PyDict [("url", PyStr "u2")];
                             PyDict [("url", PyStr "u3")]])].

(** Reading a decimal numeral back. *)
Definition parse_int (s : string) : option Z :=
  option_map Z.of_int (NilZero.int_of_string s).

(** A process with a credential whose every provider call raises (network
    error, timeout). *)
Definition unreachable : Runtime :=
  {| getenv := fun k => if (k =? "KEYAI_API_KEY")%string then Some "sk-test"
                        else None;
     hash := fun s => Z.of_nat (String.length s) - 7;
     keyai := fun _ => None;
     is_HttpUrl := fun _ => true |}.

(** More provider bodies. *)
Definition unexpected_shape : pyval :=
  PyDict [("unexpected", PyStr "shape")].

Definition video_all_fields : pyval :=
  PyDict [("url", PyStr "https://v/a.mp4");
          ("video_url", PyStr "https://v/b.mp4");
          ("data", PyDict [("url", PyStr "https://v/c.mp4")])].

Definition video_nested_only : pyval :=
  PyDict [("url", PyStr ""); ("video_url", PyNone);
          ("data", PyDict [("video_url", PyStr "https://v/d.mp4")])].

Definition mixed_entries : pyval :=
  PyDict [("data", PyList [PyStr "x"; PyDict [("url", PyStr "u1")];
                           PyDict [("url", PyStr "")];
                           PyDict [("href", PyStr "h")];
                           PyDict [("url", PyStr "u2")]])].

(** The first truthy value of a list of candidates, the empty string when
    there is none. *)
Fixpoint first_truthy (l : list pyval) : pyval :=
  match l with
  | [] => PyStr ""
  | v :: l' => if truthy v then v else first_truthy l'
  end.

(** Databases for [test_database]: twelve collections, and one whose
    listing fails. *)
Definition twelve_collections : database_handle :=
  {| db_name := Attribute (PyStr "appdb");
     db_list_collection_names :=
       inr ["c01"; "c02"; "c03"; "c04"; "c05"; "c06";
            "c07"; "c08"; "c09"; "c10"; "c11"; "c12"] |}.

Definition failing_listing : database_handle :=
  {| db_name := NoAttribute;
     db_list_collection_names := inl "server selection timed out" |}.

(** A prompt with a tab between its first two letters. *)
Definition tab_prompt : string := String "a" (String "009" "b c").

(** A process with a credential whose provider answers the image call with
    404 (and a well-formed body) and fails on every other call. *)
Definition images_404 : Runtime :=
  {| getenv := fun k => if (k =? "KEYAI_API_KEY")%string then Some "sk-test"
                        else None;
     hash := fun s => Z.of_nat (String.length s) - 7;
     keyai := fun rq =>
                if rq_timeout rq =? 60
                then Some {| status_code := 404; json := Some images_only |}
                else None;
     is_HttpUrl := fun _ => true |}.

(** ** Basic facts about the runtime model *)

Lemma as_str_list_strs (l : list string) : as_str_list (map PyStr l) = Some l.
Proof.
  induction l as [|s l IH]; simpl; [reflexivity|].
  now rewrite IH.
Qed.

Lemma as_str_list_inv (l : list pyval) (ss : list string) :
  as_str_list l = Some ss -> l = map PyStr ss.
Proof.
  revert ss; induction l as [|v l IH]; simpl; intros ss H.
  - now inversion H.
  - destruct v; simpl in H; try discriminate.
    destruct (as_str_list l) as [ss'|]; [|discriminate].
    inversion H; subst; simpl. now rewrite (IH ss' eq_refl).
Qed.

Lemma mock_images_strs (req : ImageGenRequest) :
  mock_images req = map PyStr (mock_urls req).
Proof.
  unfold mock_images, mock_urls. now rewrite map_map.
Qed.

Lemma range_length (n : Z) : List.length (range n) = Z.to_nat n.
Proof.
  unfold range. now rewrite length_map, length_seq.
Qed.

Lemma mock_urls_length (req : ImageGenRequest) :
  List.length (mock_urls req) = Z.to_nat (count req).
Proof.
  unfold mock_urls. now rewrite length_map, range_length.
Qed.

Lemma nonempty_map {A B : Type} (f : A -> B) (l : list A) :
  nonempty (map f l) = nonempty l.
Proof. now destruct l. Qed.


(** Without a credential neither endpoint reaches the provider. *)
Lemma image_block_unconfigured (rt : Runtime) (req : ImageGenRequest) :
  configured rt = false ->
  image_provider_block rt req = ret ("mock", []).
Proof.
  intros H. unfold image_provider_block. now rewrite H.
Qed.

Lemma video_block_unconfigured (rt : Runtime) (req : VideoGenRequest) :
  configured rt = false ->
  video_provider_block rt req = ret ("mock", PyStr "").
Proof.
  intros H. unfold video_provider_block. now rewrite H.
Qed.

(** What [generate_images] returns once the provider block has left
    [images] empty. *)
Lemma generate_images_fallback (rt : Runtime) (req : ImageGenRequest)
    (p : string) (log : list http_request) :
  run (image_provider_block rt req) = (inr (p, []), log) ->
  run (generate_images rt req)
  = (inr {| job_id := image_job_id rt req; images := mock_urls req;
            provider := p |}, log).
Proof.
  unfold run, generate_images, bind. intros ->. simpl.
  unfold new_ImageGenResponse.
  now rewrite mock_images_strs, as_str_list_strs.
Qed.

Lemma generate_video_fallback (rt : Runtime) (req : VideoGenRequest)
    (p : string) (log : list http_request) :
  run (video_provider_block rt req) = (inr (p, PyStr ""), log) ->
  run (generate_video rt req)
  = (inr {| v_job_id := video_job_id rt req; video_url := demo_video;
            v_provider := p |}, log).
Proof.
  unfold run, generate_video, bind. now intros ->.
Qed.

(** With a credential the provider is called exactly once, and the block
    ends without an exception whatever the provider does. *)
Lemma image_block_configured (rt : Runtime) (req : ImageGenRequest) :
  configured rt = true ->
  run (image_provider_block rt req)
  = (inr match keyai rt (image_call rt req) with
         | Some r =>
             if status_code r =? 200 then
               match json r with
               | Some data =>
                   if nonempty (extract_image_urls data)
                   then ("key.ai:nano-banana",
                         slice_to (extract_image_urls data) (count req))
                   else ("mock", [])
               | None => ("mock", [])
               end
             else ("mock", [])
         | None => ("mock", [])
         end, [image_call rt req]).
Proof.
  intros H.
  unfold run, image_provider_block, try_except, bind, requests_post, r_json.
  rewrite H. fold (image_call rt req). simpl.
  destruct (keyai rt (image_call rt req)) as [r|]; [|reflexivity].
  destruct (status_code r =? 200); [|reflexivity].
  destruct (json r) as [data|]; [|reflexivity].
  unfold ret. now destruct (nonempty (extract_image_urls data)).
Qed.

(** [a or b or ""] is the empty string as soon as it is falsy. *)
Lemma py_or_empty_falsy (a : pyval) :
  truthy (py_or a (PyStr "")) = false -> py_or a (PyStr "") = PyStr "".
Proof.
  unfold py_or. destruct (truthy a) eqn:E; [congruence|reflexivity].
Qed.

Lemma extract_video_url_falsy (data : pyval) :
  truthy (extract_video_url data) = false ->
  extract_video_url data = PyStr "".
Proof.
  unfold extract_video_url.
  destruct (isinstance_dict data); [|reflexivity].
  destruct (_ && _); apply py_or_empty_falsy.
Qed.

Lemma video_block_configured (rt : Runtime) (req : VideoGenRequest) :
  configured rt = true ->
  run (video_provider_block rt req)
  = (inr match keyai rt (video_call rt req) with
         | Some r =>
             if status_code r =? 200 then
               match json r with
               | Some data =>
                   if truthy (extract_video_url data)
                   then ("key.ai:veo-3.1", extract_video_url data)
                   else ("mock", PyStr "")
               | None => ("mock", PyStr "")
               end
             else ("mock", PyStr "")
         | None => ("mock", PyStr "")
         end, [video_call rt req]).
Proof.
  intros H.
  unfold run, video_provider_block, try_except, bind, requests_post, r_json.
  rewrite H. fold (video_call rt req). simpl.
  destruct (keyai rt (video_call rt req)) as [r|]; [|reflexivity].
  destruct (status_code r =? 200); [|reflexivity].
  destruct (json r) as [data|]; [|reflexivity].
  unfold ret.
  destruct (truthy (extract_video_url data)) eqn:E; [reflexivity|].
  now rewrite (extract_video_url_falsy data E).
Qed.

(** A body that passes the request model is a valid request. *)
Lemma ImageGenRequest_validate_valid (rt : Runtime) (b : ImageGenBody)
    (req : ImageGenRequest) :
  ImageGenRequest_validate rt b = inr req -> valid_image_request req.
Proof.
  unfold ImageGenRequest_validate, valid_image_request, min_length, ge_le.
  destruct (body_prompt b) as [p|]; [|discriminate].
  destruct (_ && _) eqn:E; [|discriminate].
  intros H; inversion H; subst; clear H; simpl.
  apply andb_prop in E as [E _]. apply andb_prop in E as [E1 E2].
  apply andb_prop in E2 as [E2 E3].
  apply Nat.leb_le in E1. lia.
Qed.

(** ** The properties *)

(** C2. With no credential configured, a request with a valid prompt and a
    count in [1,50] gets a result with exactly [count] image URLs, tagged
    ["mock"], and the provider is not called. *)
Theorem mock_images_exact_count (rt : Runtime) (req : ImageGenRequest) :
  valid_image_request req ->
  configured rt = false ->
  exists r,
    run (generate_images rt req) = (inr r, []) /\
    Z.of_nat (List.length (images r)) = count req /\
    provider r = "mock".
Proof.
  intros [_ Hc] Hk.
  eexists; split; [|split].
  - apply generate_images_fallback.
    now rewrite (image_block_unconfigured rt req Hk).
  - simpl. rewrite mock_urls_length. lia.
  - reflexivity.
Qed.

Lemma mock_images_exact_count_witness :
  exists r,
    run (generate_images offline (cat_request 3)) = (inr r, []) /\
    Z.of_nat (List.length (images r)) = 3 /\
    provider r = "mock".
Proof.
  apply (mock_images_exact_count offline (cat_request 3)).
  - unfold valid_image_request; simpl; lia.
  - reflexivity.
Defined.

(** C3. With no credential configured, a valid video request gets the fixed
    demo clip as [video_url], tagged ["mock"], and the provider is not
    called. *)
Theorem mock_video_is_demo_clip (rt : Runtime) (req : VideoGenRequest) :
  valid_video_request req ->
  configured rt = false ->
  exists r,
    run (generate_video rt req) = (inr r, []) /\
    video_url r
    = "https://interactive-examples.mdn.mozilla.net/media/cc0-videos/flower.mp4" /\
    v_provider r = "mock".
Proof.
  intros _ Hk.
  eexists; split; [|split].
  - apply generate_video_fallback.
    now rewrite (video_block_unconfigured rt req Hk).
  - reflexivity.
  - reflexivity.
Qed.

Lemma mock_video_is_demo_clip_witness :
  exists r,
    run (generate_video offline hello_request) = (inr r, []) /\
    video_url r
    = "https://interactive-examples.mdn.mozilla.net/media/cc0-videos/flower.mp4" /\
    v_provider r = "mock".
Proof.
  apply (mock_video_is_demo_clip offline hello_request).
  - unfold valid_video_request; simpl; lia.
  - reflexivity.
Defined.

(** C5. An image request whose count lies outside [1,50] or whose prompt has
    fewer than 3 characters (or is missing) ends in a validation error,
    whatever its other fields; no result is produced and the provider is
    not called. *)
Theorem invalid_image_request_rejected (rt : Runtime) (b : ImageGenBody) :
  (exists c, body_count b = Some c /\ (c < 1 \/ 50 < c)) \/
  (exists p, body_prompt b = Some p /\ (len p < 3)%nat) \/
  body_prompt b = None ->
  run (post_generate_images rt b) = (inl RequestValidationError, []).
Proof.
  intros Hbad.
  unfold run, post_generate_images, ImageGenRequest_validate.
  destruct (body_prompt b) as [p|] eqn:Hp; [|reflexivity].
  assert (E : min_length 3 p && ge_le 1 50 (with_default 10 (body_count b))
              = false).
  { unfold min_length, ge_le.
    destruct Hbad as [[c [Hc H]]|[[p' [Hp' H]]|H]]; [| |discriminate].
    - rewrite Hc. simpl with_default. apply andb_false_intro2.
      destruct H as [H|H].
      + apply andb_false_intro1, Z.leb_gt, H.
      + apply andb_false_intro2, Z.leb_gt, H.
    - inversion Hp'; subst. apply andb_false_intro1, Nat.leb_gt, H. }
  now rewrite E.
Qed.

Lemma invalid_image_request_rejected_witness :
  run (post_generate_images (answering 200 (Some images_only))
         {| body_prompt := Some "a cat in space"; body_count := Some 51;
            body_style := None; body_references := None |})
  = (inl RequestValidationError, []) /\
  run (post_generate_images (answering 200 (Some images_only))
         {| body_prompt := None; body_count := Some 0;
            body_style := None; body_references := None |})
  = (inl RequestValidationError, []) /\
  run (post_generate_images offline
         {| body_prompt := Some "éé"; body_count := None;
            body_style := None; body_references := None |})
  = (inl RequestValidationError, []).
Proof.
  split; [|split].
  - apply invalid_image_request_rejected.
    left. exists 51. split; [reflexivity | right; lia].
  - apply invalid_image_request_rejected.
    left. exists 0. split; [reflexivity | left; lia].
  - apply invalid_image_request_rejected.
    right; left. exists "éé". split; [reflexivity | simpl; lia].
Defined.

(** C7. Two calls of [generate_images] with the same prompt and the same
    count, both without a credential, return the same image URLs, whatever
    else differs between the calls (the other request fields, the string
    hash of the process, the provider). *)
Theorem mock_images_deterministic (rt1 rt2 : Runtime)
    (req1 req2 : ImageGenRequest) :
  prompt req1 = prompt req2 ->
  count req1 = count req2 ->
  configured rt1 = false ->
  configured rt2 = false ->
  exists r1 r2,
    run (generate_images rt1 req1) = (inr r1, []) /\
    run (generate_images rt2 req2) = (inr r2, []) /\
    images r1 = images r2.
Proof.
  intros Hp Hc H1 H2.
  do 2 eexists; split; [|split].
  - apply generate_images_fallback.
    now rewrite (image_block_unconfigured rt1 req1 H1).
  - apply generate_images_fallback.
    now rewrite (image_block_unconfigured rt2 req2 H2).
  - simpl. unfold mock_urls. now rewrite Hp, Hc.
Qed.

Lemma mock_images_deterministic_witness :
  exists r1 r2,
    run (generate_images offline (cat_request 3)) = (inr r1, []) /\
    run (generate_images blank_key
           {| prompt := "a cat in space"; count := 3;
              style := Some "noir"; references := Some ["http://x/y.png"] |})
    = (inr r2, []) /\
    images r1 = images r2.
Proof.
  apply (mock_images_deterministic offline blank_key); reflexivity.
Defined.

(** ** Decimal numerals and strings *)

Lemma parse_str (n : Z) : parse_int (str n) = Some n.
Proof.
  unfold parse_int, str.
  rewrite NilZero.isi.
  - simpl. now rewrite DecimalZ.of_to.
  - destruct n; simpl; try discriminate.
    intros H; inversion H as [H'].
    now apply (DecimalPos.Unsigned.to_uint_nonnil p).
  - destruct n; simpl; try discriminate.
    intros H; inversion H as [H'].
    now apply (DecimalPos.Unsigned.to_uint_nonnil p).
Qed.

Lemma str_inj (n m : Z) : str n = str m -> n = m.
Proof.
  intros H. apply (f_equal parse_int) in H.
  rewrite !parse_str in H. now inversion H.
Qed.

Lemma append_inv_head (s a b : string) : s ++ a = s ++ b -> a = b.
Proof.
  induction s as [|c s IH]; simpl; intros H; [assumption|].
  inversion H. now apply IH.
Qed.

Lemma list_ascii_of_append (a b : string) :
  list_ascii_of_string (a ++ b)
  = (list_ascii_of_string a ++ list_ascii_of_string b)%list.
Proof.
  induction a as [|c a IH]; simpl; [reflexivity|]. now rewrite IH.
Qed.

Lemma append_inv_tail (a b t : string) : a ++ t = b ++ t -> a = b.
Proof.
  intros H. apply (f_equal list_ascii_of_string) in H.
  rewrite !list_ascii_of_append in H. apply app_inv_tail in H.
  apply (f_equal string_of_list_ascii) in H.
  now rewrite !string_of_list_ascii_of_string in H.
Qed.

Lemma picsum_url_inj (seed : string) (i j : Z) :
  picsum_url seed i = picsum_url seed j -> i = j.
Proof.
  unfold picsum_url. intros H.
  apply append_inv_head in H. apply append_inv_head in H.
  apply append_inv_head in H. apply append_inv_tail in H.
  now apply str_inj.
Qed.

Lemma NoDup_map_inj {A B : Type} (f : A -> B) (l : list A) :
  (forall x y, f x = f y -> x = y) -> NoDup l -> NoDup (map f l).
Proof.
  intros Hf Hl. induction Hl as [|x l Hx Hl IH]; simpl; constructor.
  - intros Hin. apply in_map_iff in Hin as [y [Hy Hin]].
    apply Hf in Hy. now subst.
  - exact IH.
Qed.

Lemma range_NoDup (n : Z) : NoDup (range n).
Proof.
  unfold range. apply NoDup_map_inj; [apply Nat2Z.inj | apply seq_NoDup].
Qed.

Lemma replace_continuation (old new c : ascii) :
  is_continuation old = false -> is_continuation new = false ->
  is_continuation (if Ascii.eqb c old then new else c) = is_continuation c.
Proof.
  intros Ho Hn. destruct (Ascii.eqb_spec c old) as [->|_]; congruence.
Qed.

Lemma take_replace (n : nat) (old new : ascii) (s : string) :
  is_continuation old = false -> is_continuation new = false ->
  take n (replace old new s) = replace old new (take n s).
Proof.
  intros Ho Hn. revert n. induction s as [|c s IH]; intros n; simpl;
    [reflexivity|].
  rewrite (replace_continuation old new c Ho Hn).
  destruct (is_continuation c).
  - simpl. now rewrite IH.
  - destruct n as [|n]; simpl; [reflexivity|]. now rewrite IH.
Qed.

Lemma take_length (n : nat) (s : string) : (len (take n s) <= n)%nat.
Proof.
  revert n. induction s as [|c s IH]; intros n; simpl; [lia|].
  destruct (is_continuation c) eqn:E.
  - simpl. rewrite E. apply IH.
  - destruct n as [|n]; simpl; [lia|]. rewrite E. specialize (IH n). lia.
Qed.

Lemma len_le_length (s : string) : (len s <= String.length s)%nat.
Proof.
  induction s as [|c s IH]; simpl; [lia|].
  destruct (is_continuation c); lia.
Qed.

Lemma replace_removes (old new : ascii) (s : string) :
  old <> new -> ~ In old (list_ascii_of_string (replace old new s)).
Proof.
  intros Hne. induction s as [|c s IH]; simpl; [tauto|].
  intros [H|H]; [|now apply IH].
  destruct (Ascii.eqb_spec c old) as [E|E]; congruence.
Qed.

Lemma range_nth_error (n i : Z) :
  0 <= i < n -> nth_error (range n) (Z.to_nat i) = Some i.
Proof.
  intros H. unfold range.
  rewrite nth_error_map.
  rewrite (nth_error_nth' _ 0%nat) by (rewrite length_seq; lia).
  rewrite seq_nth by lia. simpl. f_equal. lia.
Qed.

(** C8, as the code has it.  On the fallback path the seed is the prompt
    cut to 40 characters with every space (U+0020) replaced by ["+"], all
    other characters, other whitespace included, kept; the result carries
    exactly [count] placeholder URLs, the one at index [i] built from the
    seed and [i]; the URLs are pairwise distinct, and they depend on the
    prompt and the count only. *)
Theorem fallback_images_seeded (rt : Runtime) (req : ImageGenRequest)
    (p : string) (log : list http_request) :
  run (image_provider_block rt req) = (inr (p, []), log) ->
  let seed := replace " " "+" (take 40 (prompt req)) in
  exists r,
    run (generate_images rt req) = (inr r, log) /\
    images r = map (picsum_url seed) (range (count req)) /\
    List.length (images r) = Z.to_nat (count req) /\
    (forall i, 0 <= i < count req ->
       nth_error (images r) (Z.to_nat i)
       = Some ("https://picsum.photos/seed/" ++ seed ++ "-" ++ str i
               ++ "/768/1024")) /\
    NoDup (images r) /\
    (len seed <= 40)%nat /\
    ~ In " "%char (list_ascii_of_string seed).
Proof.
  intros H seed.
  assert (Hs : seed_of (prompt req) = seed)
    by (unfold seed_of, seed; apply take_replace; reflexivity).
  exists {| job_id := image_job_id rt req; images := mock_urls req;
            provider := p |}.
  split; [now apply generate_images_fallback|]. simpl.
  unfold mock_urls. rewrite Hs.
  split; [reflexivity|].
  split; [now rewrite length_map, range_length|].
  split.
  { intros i Hi. rewrite nth_error_map, (range_nth_error _ _ Hi).
    reflexivity. }
  split.
  { apply NoDup_map_inj; [apply picsum_url_inj | apply range_NoDup]. }
  split.
  { rewrite <- Hs. apply take_length. }
  apply replace_removes. discriminate.
Qed.

Lemma fallback_images_seeded_witness :
  exists r,
    run (generate_images offline (cat_request 3)) = (inr r, []) /\
    images r = ["https://picsum.photos/seed/a+cat+in+space-0/768/1024";
                "https://picsum.photos/seed/a+cat+in+space-1/768/1024";
                "https://picsum.photos/seed/a+cat+in+space-2/768/1024"].
Proof.
  destruct (fallback_images_seeded offline (cat_request 3) "mock" [] eq_refl)
    as [r [Hrun [Himg _]]].
  exists r. split; [exact Hrun|]. rewrite Himg. reflexivity.
Defined.

(** C8, as stated, fails: whitespace other than the space is not
    replaced.  The tab of the prompt is still in the seed and in the
    placeholder URL. *)
Lemma seed_keeps_tab_counterexample :
  In "009"%char (list_ascii_of_string (seed_of tab_prompt)) /\
  run (generate_images offline
         {| prompt := tab_prompt; count := 1; style := None;
            references := None |})
  = (inr {| job_id := "job_img_2";
            images := ["https://picsum.photos/seed/a"
                       ++ String "009" "b+c-0/768/1024"];
            provider := "mock" |}, []).
Proof.
  split; [right; left; reflexivity | reflexivity].
Qed.

(** [len] and [take] count characters, not bytes. *)
Lemma len_take_characters :
  len "éé" = 2%nat /\ String.length "éé" = 4%nat /\
  take 2 "héllo" = "hé" /\ len (take 40 "ééééééééééééééééééééééééééééééééééééééééééééé") = 40%nat.
Proof. repeat split. Qed.

(** What [generate_images] and [generate_video] put in the identifier of
    every result they return. *)
Lemma generate_images_job_id (rt : Runtime) (req : ImageGenRequest)
    (r : ImageGenResponse) (log : list http_request) :
  run (generate_images rt req) = (inr r, log) ->
  job_id r = image_job_id rt req.
Proof.
  unfold run, generate_images, bind, new_ImageGenResponse, ret, raise.
  destruct (image_provider_block rt req []) as [[e|[p imgs]] log'];
    [discriminate|].
  destruct (as_str_list _); intros H; inversion H. reflexivity.
Qed.

Lemma generate_video_job_id (rt : Runtime) (req : VideoGenRequest)
    (r : VideoGenResponse) (log : list http_request) :
  run (generate_video rt req) = (inr r, log) ->
  v_job_id r = video_job_id rt req.
Proof.
  unfold run, generate_video, bind, new_VideoGenResponse, ret, raise.
  destruct (video_provider_block rt req []) as [[e|[p u]] log'];
    [discriminate|].
  destruct (as_str _); intros H; inversion H. reflexivity.
Qed.

(** C9. The identifier of a result is ["job_img_"] (images) or ["job_vid_"]
    (video) followed by the decimal numeral of an integer [n] with
    [0 <= n < 10,000,000], computed from the hash of the prompt or of the
    script; without a credential both endpoints do return such a result. *)
Theorem job_id_format (rt : Runtime) (ireq : ImageGenRequest)
    (vreq : VideoGenRequest) :
  let n := Z.abs (hash rt (prompt ireq)) mod 10000000 in
  let m := Z.abs (hash rt (script vreq)) mod 10000000 in
  (0 <= n < 10000000 /\ parse_int (str n) = Some n) /\
  (0 <= m < 10000000 /\ parse_int (str m) = Some m) /\
  (forall r log, run (generate_images rt ireq) = (inr r, log) ->
                 job_id r = "job_img_" ++ str n) /\
  (forall r log, run (generate_video rt vreq) = (inr r, log) ->
                 v_job_id r = "job_vid_" ++ str m) /\
  (configured rt = false ->
   exists r v, run (generate_images rt ireq) = (inr r, []) /\
               run (generate_video rt vreq) = (inr v, []) /\
               job_id r = "job_img_" ++ str n /\
               v_job_id v = "job_vid_" ++ str m).
Proof.
  intros n m.
  split; [split; [apply Z.mod_pos_bound; lia | apply parse_str]|].
  split; [split; [apply Z.mod_pos_bound; lia | apply parse_str]|].
  split; [intros r log H; apply (generate_images_job_id _ _ _ _ H)|].
  split; [intros r log H; apply (generate_video_job_id _ _ _ _ H)|].
  intros Hk. do 2 eexists.
  split; [apply generate_images_fallback;
          now rewrite (image_block_unconfigured rt ireq Hk)|].
  split; [apply generate_video_fallback;
          now rewrite (video_block_unconfigured rt vreq Hk)|].
  split; reflexivity.
Qed.

Lemma job_id_format_witness :
  exists r v,
    run (generate_images offline (cat_request 3)) = (inr r, []) /\
    run (generate_video offline hello_request) = (inr v, []) /\
    job_id r = "job_img_7" /\ v_job_id v = "job_vid_4".
Proof.
  destruct (job_id_format offline (cat_request 3) hello_request)
    as [_ [_ [_ [_ H]]]].
  destruct (H eq_refl) as [r [v [Hr [Hv [Hj Hw]]]]].
  exists r, v. repeat split; assumption.
Defined.

(** C10. With a credential configured, a reply whose status is not exactly
    200 (201 included) is a failure, at each endpoint on its own: it
    returns the fallback output tagged ["mock"], and the result does not
    depend on the body of the reply, which is not read. *)
Theorem non_200_reply_falls_back (rt : Runtime) (ireq : ImageGenRequest)
    (vreq : VideoGenRequest) :
  configured rt = true ->
  (forall ri,
     keyai rt (image_call rt ireq) = Some ri -> status_code ri <> 200 ->
     run (generate_images rt ireq)
     = (inr {| job_id := image_job_id rt ireq; images := mock_urls ireq;
               provider := "mock" |}, [image_call rt ireq])) /\
  (forall rv,
     keyai rt (video_call rt vreq) = Some rv -> status_code rv <> 200 ->
     run (generate_video rt vreq)
     = (inr {| v_job_id := video_job_id rt vreq; video_url := demo_video;
               v_provider := "mock" |}, [video_call rt vreq])).
Proof.
  intros Hk. split.
  - intros ri Hi Hsi. apply generate_images_fallback.
    rewrite (image_block_configured rt ireq Hk), Hi.
    apply Z.eqb_neq in Hsi. now rewrite Hsi.
  - intros rv Hv Hsv. apply generate_video_fallback.
    rewrite (video_block_configured rt vreq Hk), Hv.
    apply Z.eqb_neq in Hsv. now rewrite Hsv.
Qed.

Lemma non_200_reply_falls_back_witness :
  run (generate_images images_404 (cat_request 2))
  = (inr {| job_id := "job_img_7";
            images := ["https://picsum.photos/seed/a+cat+in+space-0/768/1024";
                       "https://picsum.photos/seed/a+cat+in+space-1/768/1024"];
            provider := "mock" |}, [image_call images_404 (cat_request 2)]) /\
  run (generate_video (answering 201 (Some video_all_fields)) hello_request)
  = (inr {| v_job_id := "job_vid_4"; video_url := demo_video;
            v_provider := "mock" |},
     [video_call (answering 201 (Some video_all_fields)) hello_request]).
Proof.
  split.
  - apply (proj1 (non_200_reply_falls_back images_404 (cat_request 2)
                    hello_request eq_refl)
             {| status_code := 404; json := Some images_only |});
      [reflexivity | discriminate].
  - apply (proj2 (non_200_reply_falls_back
                    (answering 201 (Some video_all_fields)) (cat_request 2)
                    hello_request eq_refl)
             {| status_code := 201; json := Some video_all_fields |});
      [reflexivity | discriminate].
Defined.

(** ** Extraction of the provider's images *)

Lemma extract_image_urls_cases (data : pyval) :
  extract_image_urls data
  = if shape_present "images" data then shape_urls "images" data
    else shape_urls "data" data.
Proof.
  destruct data; try reflexivity.
  unfold extract_image_urls, shape_present, shape_urls, contains, getitem,
    get, isinstance_dict.
  destruct (lookup "images" d) as [v|].
  - destruct v; simpl; try reflexivity;
      destruct (lookup "data" d) as [w|]; try reflexivity;
      destruct w; reflexivity.
  - simpl. destruct (lookup "data" d) as [w|]; try reflexivity.
    destruct w; reflexivity.
Qed.

(** The choice of the shape as the code makes it.  Extraction uses the
    first recognized shape that is present: the ["images"] list when the
    body has one, otherwise the ["data"] list.  Each shape alone is
    recovered, and extraction agrees with trying the shapes until one
    yields a URL whenever ["images"] is absent or yields a URL. *)
Theorem extract_uses_first_present_shape (data : pyval) :
  (shape_present "images" data = true ->
   extract_image_urls data = shape_urls "images" data) /\
  (shape_present "images" data = false ->
   extract_image_urls data = shape_urls "data" data) /\
  (shape_present "images" data = false \/
   nonempty (shape_urls "images" data) = true \/
   nonempty (shape_urls "data" data) = false ->
   extract_image_urls data = extract_images_until_nonempty data) /\
  extract_image_urls images_only = [PyStr "a"] /\
  extract_image_urls data_only = [PyStr "b"].
Proof.
  rewrite extract_image_urls_cases. unfold extract_images_until_nonempty.
  split; [now intros ->|]. split; [now intros ->|].
  split; [|split; reflexivity].
  destruct (shape_present "images" data) eqn:Hp.
  - intros [H|[H|H]]; [discriminate|now rewrite H|].
    destruct (shape_urls "images" data); [|reflexivity].
    simpl. now destruct (shape_urls "data" data).
  - intros _.
    assert (E : shape_urls "images" data = []).
    { destruct data; try reflexivity. unfold shape_present in Hp.
      unfold shape_urls. destruct (lookup "images" d) as [v|];
        [destruct v|]; try reflexivity; discriminate. }
    now rewrite E.
Qed.

Lemma extract_uses_first_present_shape_witness :
  extract_image_urls three_urls = [PyStr "u1"; PyStr "u2"; PyStr "u3"].
Proof.
  rewrite (proj1 (extract_uses_first_present_shape three_urls) eq_refl).
  reflexivity.
Defined.

(** C1, at the failing input.  The ["images"] list is present and yields
    no non-empty URL, the ["data"] list yields ["b"]: trying the shapes
    until one yields a URL gives ["b"], where the code stops at
    ["images"], extracts nothing and has the endpoint answer with the
    placeholders tagged ["mock"]. *)
Lemma extract_stops_at_images_counterexample :
  shape_present "images" images_blank_then_data = true /\
  shape_urls "images" images_blank_then_data = [] /\
  shape_urls "data" images_blank_then_data = [PyStr "b"] /\
  extract_images_until_nonempty images_blank_then_data = [PyStr "b"] /\
  extract_image_urls images_blank_then_data = [] /\
  run (generate_images (answering 200 (Some images_blank_then_data))
         (cat_request 1))
  = (inr {| job_id := "job_img_7";
            images := ["https://picsum.photos/seed/a+cat+in+space-0/768/1024"];
            provider := "mock" |},
     [image_call (answering 200 (Some images_blank_then_data))
        (cat_request 1)]).
Proof.
  repeat split; reflexivity.
Qed.

(** ** Responses *)

(** C4, at the failing input.  A credential is configured and the provider
    answers 200 with a body whose [url] field holds a list: the endpoint
    takes it for an image URL (for the video URL), and the response model
    refuses it, an exception that nothing catches; no result is returned. *)
Theorem non_string_url_is_not_caught :
  run (generate_images (answering 200 (Some image_url_is_a_list))
         (cat_request 1))
  = (inl ValidationError,
     [image_call (answering 200 (Some image_url_is_a_list)) (cat_request 1)])
  /\
  run (generate_video (answering 200 (Some video_url_is_a_list))
         hello_request)
  = (inl ValidationError,
     [video_call (answering 200 (Some video_url_is_a_list)) hello_request]).
Proof.
  split; reflexivity.
Qed.

Lemma slice_to_nonneg {A : Type} (l : list A) (n : Z) :
  0 <= n -> slice_to l n = firstn (Z.to_nat n) l.
Proof.
  intros H. unfold slice_to. apply Z.leb_le in H. now rewrite H.
Qed.

Lemma nonempty_firstn {A : Type} (l : list A) (n : nat) :
  (0 < n)%nat -> nonempty (firstn n l) = nonempty l.
Proof.
  destruct n; [lia|]. now destruct l.
Qed.

(** Every result the image endpoint returns for a valid request is either
    the [count] placeholders or a non-empty prefix, of at most [count]
    URLs, of what extraction found in a 200 reply. *)
Lemma generate_images_returns (rt : Runtime) (req : ImageGenRequest)
    (res : ImageGenResponse) (log : list http_request) :
  valid_image_request req ->
  run (generate_images rt req) = (inr res, log) ->
  (images res = mock_urls req /\ provider res = "mock") \/
  (exists r data,
     configured rt = true /\
     keyai rt (image_call rt req) = Some r /\ status_code r = 200 /\
     json r = Some data /\
     map PyStr (images res)
     = firstn (Z.to_nat (count req)) (extract_image_urls data) /\
     images res <> [] /\
     provider res = "key.ai:nano-banana").
Proof.
  intros [_ Hc] Hrun.
  destruct (configured rt) eqn:Hk.
  2:{ left. rewrite (generate_images_fallback rt req "mock" []) in Hrun
        by now rewrite (image_block_unconfigured rt req Hk).
      inversion Hrun. now split. }
  pose proof (image_block_configured rt req Hk) as Hb.
  assert (Hmock : run (image_provider_block rt req)
                  = (inr ("mock", []), [image_call rt req]) ->
                  images res = mock_urls req /\ provider res = "mock").
  { intros Hm. rewrite (generate_images_fallback _ _ _ _ Hm) in Hrun.
    inversion Hrun. now split. }
  destruct (keyai rt (image_call rt req)) as [r|] eqn:Hr; [|now left; auto].
  destruct (status_code r =? 200) eqn:Hs; [|now left; auto].
  destruct (json r) as [data|] eqn:Hj; [|now left; auto].
  destruct (nonempty (extract_image_urls data)) eqn:Hn; [|now left; auto].
  right. exists r, data.
  rewrite slice_to_nonneg in Hb by lia.
  assert (Hne : nonempty (firstn (Z.to_nat (count req))
                            (extract_image_urls data)) = true)
    by (rewrite nonempty_firstn; [assumption | lia]).
  unfold run, generate_images, bind in Hrun. unfold run in Hb.
  rewrite Hb in Hrun. cbv beta iota zeta in Hrun. rewrite Hne in Hrun.
  unfold new_ImageGenResponse in Hrun.
  destruct (as_str_list _) as [ss|] eqn:Hss; [|discriminate].
  inversion Hrun; subst; simpl. apply as_str_list_inv in Hss.
  apply Z.eqb_eq in Hs.
  repeat split; try assumption; try reflexivity; [now symmetry|].
  intros ->. rewrite Hss in Hne. discriminate.
Qed.

(** A result that is returned for a valid request has at least one
    image. *)
Lemma returned_images_nonempty (rt : Runtime) (req : ImageGenRequest)
    (res : ImageGenResponse) (log : list http_request) :
  valid_image_request req ->
  run (generate_images rt req) = (inr res, log) ->
  images res <> [].
Proof.
  intros Hv Hrun.
  destruct (generate_images_returns rt req res log Hv Hrun)
    as [[Hm _]|[r [data [_ [_ [_ [_ [_ [Hne _]]]]]]]]]; [|assumption].
  intros E. apply (f_equal (@List.length string)) in E.
  rewrite Hm, mock_urls_length in E. destruct Hv as [_ Hc]. simpl in E. lia.
Qed.

(** C6. When extraction finds more URLs than requested, the result carries
    exactly the first [count] of them; when it finds at most [count], the
    result carries them all and nothing else (no padding).  A result with
    fewer than [count] images is returned only when the provider's reply
    held fewer than [count] URLs. *)
Theorem provider_urls_truncated (rt : Runtime) (req : ImageGenRequest) :
  valid_image_request req ->
  (forall r data us,
     configured rt = true ->
     keyai rt (image_call rt req) = Some r -> status_code r = 200 ->
     json r = Some data ->
     extract_image_urls data = map PyStr us -> us <> [] ->
     exists res,
       run (generate_images rt req) = (inr res, [image_call rt req]) /\
       images res = firstn (Z.to_nat (count req)) us /\
       provider res = "key.ai:nano-banana" /\
       (count req < Z.of_nat (List.length us) ->
        Z.of_nat (List.length (images res)) = count req) /\
       (Z.of_nat (List.length us) <= count req -> images res = us)) /\
  (forall res log,
     run (generate_images rt req) = (inr res, log) ->
     Z.of_nat (List.length (images res)) <= count req /\
     (Z.of_nat (List.length (images res)) < count req ->
      exists r data,
        keyai rt (image_call rt req) = Some r /\ status_code r = 200 /\
        json r = Some data /\
        extract_image_urls data = map PyStr (images res) /\
        Z.of_nat (List.length (extract_image_urls data)) < count req)).
Proof.
  intros Hv. pose proof Hv as [_ Hc]. split.
  - intros r data us Hk Hr Hs Hj Hus Hne.
    exists {| job_id := image_job_id rt req;
              images := firstn (Z.to_nat (count req)) us;
              provider := "key.ai:nano-banana" |}.
    split; [|split; [reflexivity|split; [reflexivity|split]]].
    + pose proof (image_block_configured rt req Hk) as Hb.
      rewrite Hr, Hs, Z.eqb_refl, Hj, Hus, nonempty_map in Hb.
      assert (Hn : nonempty us = true) by (destruct us; [congruence | reflexivity]).
      rewrite Hn, slice_to_nonneg, firstn_map in Hb by lia.
      unfold run, generate_images, bind. unfold run in Hb. rewrite Hb.
      cbv beta iota zeta.
      rewrite nonempty_map, nonempty_firstn, Hn by lia.
      unfold new_ImageGenResponse. now rewrite as_str_list_strs.
    + simpl. intros Hlt. rewrite length_firstn. lia.
    + simpl. intros Hle. apply firstn_all2. lia.
  - intros res log Hrun.
    destruct (generate_images_returns rt req res log Hv Hrun)
      as [[Hm _]|[r [data [_ [Hr [Hs [Hj [Himg _]]]]]]]].
    + rewrite Hm, mock_urls_length. split; [lia|]. lia.
    + assert (Hlen : List.length (images res)
                     = Nat.min (Z.to_nat (count req))
                         (List.length (extract_image_urls data))).
      { rewrite <- length_firstn, <- Himg. now rewrite length_map. }
      split; [lia|]. intros Hlt.
      exists r, data. repeat split; try assumption.
      * rewrite Himg. symmetry. apply firstn_all2. lia.
      * lia.
Qed.

Lemma provider_urls_truncated_witness :
  exists res,
    run (generate_images (answering 200 (Some three_urls)) (cat_request 2))
    = (inr res, [image_call (answering 200 (Some three_urls))
                   (cat_request 2)]) /\
    images res = ["u1"; "u2"] /\
    provider res = "key.ai:nano-banana".
Proof.
  assert (Hv : valid_image_request (cat_request 2))
    by (unfold valid_image_request; simpl; lia).
  destruct (proj1 (provider_urls_truncated
                     (answering 200 (Some three_urls)) (cat_request 2) Hv)
              {| status_code := 200; json := Some three_urls |} three_urls
              ["u1"; "u2"; "u3"] eq_refl eq_refl eq_refl eq_refl eq_refl)
    as [res [Hrun [Himg [Hp _]]]]; [discriminate|].
  exists res. repeat split; assumption.
Defined.

(** ** The provider calls of a request *)

Lemma new_ImageGenResponse_log (job : string) (imgs : list pyval)
    (prov : string) (log : list http_request) :
  snd (new_ImageGenResponse job imgs prov log) = log.
Proof.
  unfold new_ImageGenResponse. now destruct (as_str_list imgs).
Qed.

Lemma new_VideoGenResponse_log (job : string) (url : pyval)
    (prov : string) (log : list http_request) :
  snd (new_VideoGenResponse job url prov log) = log.
Proof.
  unfold new_VideoGenResponse. now destruct (as_str url).
Qed.

Lemma generate_images_log (rt : Runtime) (req : ImageGenRequest)
    (x : string * list pyval) (log : list http_request) :
  run (image_provider_block rt req) = (inr x, log) ->
  snd (run (generate_images rt req)) = log.
Proof.
  unfold run, generate_images, bind. intros ->. destruct x as [p imgs].
  apply new_ImageGenResponse_log.
Qed.

Lemma generate_video_log (rt : Runtime) (req : VideoGenRequest)
    (x : string * pyval) (log : list http_request) :
  run (video_provider_block rt req) = (inr x, log) ->
  snd (run (generate_video rt req)) = log.
Proof.
  unfold run, generate_video, bind. intros ->. destruct x as [p u].
  apply new_VideoGenResponse_log.
Qed.

(** X1. [generate_images] calls the provider exactly once when a credential
    is configured and not at all otherwise, whatever the request and
    whatever becomes of the call: one POST to the image path under the base
    URL, with the bearer headers, the payload of the request and a timeout
    of 60. *)
Theorem image_provider_called_once (rt : Runtime) (req : ImageGenRequest) :
  snd (run (generate_images rt req))
  = if configured rt
    then [{| rq_url := KEYAI_BASE rt ++ "/v1/images/generate";
             rq_json := image_payload req;
             rq_headers := [("Authorization", "Bearer " ++ api_key rt);
                            ("Content-Type", "application/json")];
             rq_timeout := 60 |}]
    else [].
Proof.
  destruct (configured rt) eqn:Hk.
  - apply (generate_images_log rt req _ _ (image_block_configured rt req Hk)).
  - apply (generate_images_log rt req ("mock", [])).
    now rewrite (image_block_unconfigured rt req Hk).
Qed.

(** X2. [generate_video] calls the provider exactly once when a credential
    is configured and not at all otherwise: one POST to the video path, with
    a timeout of 120. *)
Theorem video_provider_called_once (rt : Runtime) (req : VideoGenRequest) :
  snd (run (generate_video rt req))
  = if configured rt
    then [{| rq_url := KEYAI_BASE rt ++ "/v1/video/generate";
             rq_json := video_payload req;
             rq_headers := [("Authorization", "Bearer " ++ api_key rt);
                            ("Content-Type", "application/json")];
             rq_timeout := 120 |}]
    else [].
Proof.
  destruct (configured rt) eqn:Hk.
  - apply (generate_video_log rt req _ _ (video_block_configured rt req Hk)).
  - apply (generate_video_log rt req ("mock", PyStr "")).
    now rewrite (video_block_unconfigured rt req Hk).
Qed.

(** ** Failures of the provider *)

(** X3. With a credential configured, a provider call that raises, a reply
    whose body is not JSON, and a reply whose body holds no recognized image
    URL all end in the placeholder result tagged ["mock"]; nothing is
    raised to the caller. *)
Theorem image_provider_failure_absorbed (rt : Runtime)
    (req : ImageGenRequest) :
  configured rt = true ->
  keyai rt (image_call rt req) = None \/
  (exists r, keyai rt (image_call rt req) = Some r /\
             (json r = None \/
              exists data, json r = Some data /\
                           extract_image_urls data = [])) ->
  run (generate_images rt req)
  = (inr {| job_id := image_job_id rt req; images := mock_urls req;
            provider := "mock" |}, [image_call rt req]).
Proof.
  intros Hk H. apply generate_images_fallback.
  rewrite (image_block_configured rt req Hk).
  destruct H as [->|[r [-> H]]]; [reflexivity|].
  destruct (status_code r =? 200); [|reflexivity].
  destruct H as [->|[data [-> ->]]]; reflexivity.
Qed.

Lemma image_provider_failure_absorbed_witness :
  (exists r1, run (generate_images unreachable (cat_request 2))
              = (inr r1, [image_call unreachable (cat_request 2)]) /\
              provider r1 = "mock" /\ List.length (images r1) = 2%nat) /\
  (exists r2, run (generate_images (answering 200 (Some unexpected_shape))
                     (cat_request 2))
              = (inr r2, [image_call (answering 200 (Some unexpected_shape))
                            (cat_request 2)]) /\
              provider r2 = "mock" /\ List.length (images r2) = 2%nat).
Proof.
  split; eexists.
  - split.
    { apply (image_provider_failure_absorbed unreachable (cat_request 2));
        [reflexivity | left; reflexivity]. }
    split; reflexivity.
  - split.
    { apply (image_provider_failure_absorbed
               (answering 200 (Some unexpected_shape)) (cat_request 2));
        [reflexivity|].
      right. eexists. split; [reflexivity|].
      right. exists unexpected_shape. split; reflexivity. }
    split; reflexivity.
Defined.

(** X4. With a credential configured, a provider call that raises, a reply
    whose body is not JSON, and a reply whose body holds no truthy video
    URL all end in the demo clip tagged ["mock"]. *)
Theorem video_provider_failure_absorbed (rt : Runtime)
    (req : VideoGenRequest) :
  configured rt = true ->
  keyai rt (video_call rt req) = None \/
  (exists r, keyai rt (video_call rt req) = Some r /\
             (json r = None \/
              exists data, json r = Some data /\
                           truthy (extract_video_url data) = false)) ->
  run (generate_video rt req)
  = (inr {| v_job_id := video_job_id rt req; video_url := demo_video;
            v_provider := "mock" |}, [video_call rt req]).
Proof.
  intros Hk H. apply generate_video_fallback.
  rewrite (video_block_configured rt req Hk).
  destruct H as [->|[r [-> H]]]; [reflexivity|].
  destruct (status_code r =? 200); [|reflexivity].
  destruct H as [->|[data [-> ->]]]; reflexivity.
Qed.

Lemma video_provider_failure_absorbed_witness :
  (exists r1, run (generate_video unreachable hello_request)
              = (inr r1, [video_call unreachable hello_request]) /\
              v_provider r1 = "mock" /\ video_url r1 = demo_video) /\
  (exists r2, run (generate_video (answering 200 None) hello_request)
              = (inr r2, [video_call (answering 200 None) hello_request]) /\
              v_provider r2 = "mock" /\ video_url r2 = demo_video).
Proof.
  split; eexists.
  - split.
    { apply (video_provider_failure_absorbed unreachable hello_request);
        [reflexivity | left; reflexivity]. }
    split; reflexivity.
  - split.
    { apply (video_provider_failure_absorbed (answering 200 None)
               hello_request); [reflexivity|].
      right. eexists. split; [reflexivity|]. left. reflexivity. }
    split; reflexivity.
Defined.

(** ** Extraction of the provider's video *)

(** X5. For a body that is an object, the video URL is the first truthy
    value among its ["url"], its ["video_url"], and the ["url"] and the
    ["video_url"] of its nested ["data"] object, in this order, and the
    empty string when none is truthy; a nested ["data"] that is not an
    object contributes nothing.  A body that is not an object yields the
    empty string. *)
Theorem video_url_first_truthy (data : pyval) :
  (isinstance_dict data = true ->
   extract_video_url data
   = first_truthy [get data "url"; get data "video_url";
                   get (get data "data") "url";
                   get (get data "data") "video_url"]) /\
  (isinstance_dict data = false -> extract_video_url data = PyStr "").
Proof.
  unfold extract_video_url. split; intros ->; [|reflexivity].
  unfold py_or, getitem. simpl first_truthy.
  destruct (truthy (get data "url")) eqn:E1.
  { cbv iota. repeat (rewrite E1; cbv iota). reflexivity. }
  destruct (truthy (get data "video_url")) eqn:E2.
  { cbv iota. repeat (rewrite E2; cbv iota). reflexivity. }
  cbv iota. simpl truthy. simpl negb. rewrite andb_true_l.
  assert (Hc : contains data "data" && isinstance_dict (get data "data")
               = isinstance_dict (get data "data")).
  { destruct data; try reflexivity. simpl.
    destruct (lookup "data" d); reflexivity. }
  rewrite Hc.
  destruct (get data "data") as [| | | | | |n]; try reflexivity.
  simpl isinstance_dict. cbv iota.
  destruct (truthy (get (PyDict n) "url")) eqn:E3.
  { cbv iota. repeat (rewrite E3; cbv iota). reflexivity. }
  destruct (truthy (get (PyDict n) "video_url")) eqn:E4;
    cbv iota; repeat (rewrite E4; cbv iota); reflexivity.
Qed.

Lemma video_url_first_truthy_witness :
  extract_video_url video_all_fields = PyStr "https://v/a.mp4" /\
  extract_video_url video_nested_only = PyStr "https://v/d.mp4" /\
  extract_video_url (PyList [video_all_fields]) = PyStr "".
Proof.
  split; [|split].
  - rewrite (proj1 (video_url_first_truthy video_all_fields) eq_refl).
    reflexivity.
  - rewrite (proj1 (video_url_first_truthy video_nested_only) eq_refl).
    reflexivity.
  - apply (proj2 (video_url_first_truthy (PyList [video_all_fields]))).
    reflexivity.
Defined.

(** X6. With a credential configured, a 200 reply whose extracted video URL
    is a non-empty string is returned as it is, tagged
    ["key.ai:veo-3.1"]. *)
Theorem video_provider_url_returned (rt : Runtime) (req : VideoGenRequest)
    (r : http_response) (data : pyval) (u : string) :
  configured rt = true ->
  keyai rt (video_call rt req) = Some r -> status_code r = 200 ->
  json r = Some data ->
  extract_video_url data = PyStr u -> u <> "" ->
  run (generate_video rt req)
  = (inr {| v_job_id := video_job_id rt req; video_url := u;
            v_provider := "key.ai:veo-3.1" |}, [video_call rt req]).
Proof.
  intros Hk Hr Hs Hj Hu Hne.
  assert (Ht : truthy (PyStr u) = true).
  { simpl. destruct (String.eqb_spec u ""); [contradiction|reflexivity]. }
  pose proof (video_block_configured rt req Hk) as Hb.
  rewrite Hr, Hs, Z.eqb_refl, Hj, Hu, Ht in Hb.
  unfold run, generate_video, bind. unfold run in Hb. rewrite Hb.
  cbv beta iota zeta. rewrite Ht. reflexivity.
Qed.

Lemma video_provider_url_returned_witness :
  run (generate_video (answering 200 (Some video_nested_only))
         hello_request)
  = (inr {| v_job_id := "job_vid_4"; video_url := "https://v/d.mp4";
            v_provider := "key.ai:veo-3.1" |},
     [video_call (answering 200 (Some video_nested_only)) hello_request]).
Proof.
  apply (video_provider_url_returned
           (answering 200 (Some video_nested_only)) hello_request
           {| status_code := 200; json := Some video_nested_only |}
           video_nested_only "https://v/d.mp4");
    try reflexivity. discriminate.
Defined.

(** X7. Every result [generate_video] returns has a non-empty [video_url],
    and its provider tag tells where the URL comes from: ["mock"] goes
    with the demo clip, ["key.ai:veo-3.1"] with the URL extracted from a
    200 reply obtained with a credential. *)
Theorem video_result_origin (rt : Runtime) (req : VideoGenRequest)
    (res : VideoGenResponse) (log : list http_request) :
  run (generate_video rt req) = (inr res, log) ->
  video_url res <> "" /\
  ((v_provider res = "mock" /\ video_url res = demo_video) \/
   (v_provider res = "key.ai:veo-3.1" /\
    exists r data,
      configured rt = true /\
      keyai rt (video_call rt req) = Some r /\ status_code r = 200 /\
      json r = Some data /\
      extract_video_url data = PyStr (video_url res))).
Proof.
  intros Hrun.
  assert (Hmock : forall lg,
             run (video_provider_block rt req) = (inr ("mock", PyStr ""), lg) ->
             video_url res <> "" /\
             ((v_provider res = "mock" /\ video_url res = demo_video) \/
              (v_provider res = "key.ai:veo-3.1" /\
               exists r data,
                 configured rt = true /\
                 keyai rt (video_call rt req) = Some r /\
                 status_code r = 200 /\ json r = Some data /\
                 extract_video_url data = PyStr (video_url res)))).
  { intros lg Hm. rewrite (generate_video_fallback _ _ _ _ Hm) in Hrun.
    inversion Hrun; simpl. split; [discriminate|]. left. now split. }
  destruct (configured rt) eqn:Hk.
  2:{ apply (Hmock []). now rewrite (video_block_unconfigured rt req Hk). }
  pose proof (video_block_configured rt req Hk) as Hb.
  destruct (keyai rt (video_call rt req)) as [r|] eqn:Hr; [|eauto].
  destruct (status_code r =? 200) eqn:Hs; [|eauto].
  destruct (json r) as [data|] eqn:Hj; [|eauto].
  destruct (truthy (extract_video_url data)) eqn:Ht; [|eauto].
  unfold run, generate_video, bind in Hrun. unfold run in Hb.
  rewrite Hb in Hrun. cbv beta iota zeta in Hrun. rewrite Ht in Hrun.
  unfold new_VideoGenResponse in Hrun.
  destruct (extract_video_url data) as [| | | |u| |] eqn:Hu;
    simpl in Hrun; try discriminate.
  inversion Hrun; subst; simpl. apply Z.eqb_eq in Hs. split.
  - intros ->. discriminate.
  - right. split; [reflexivity|]. exists r, data. now repeat split.
Qed.

Lemma video_result_origin_witness :
  "https://v/a.mp4" <> "" /\
  (("key.ai:veo-3.1" = "mock" /\ "https://v/a.mp4" = demo_video) \/
   ("key.ai:veo-3.1" = "key.ai:veo-3.1" /\
    exists r data,
      configured (answering 200 (Some video_all_fields)) = true /\
      keyai (answering 200 (Some video_all_fields))
        (video_call (answering 200 (Some video_all_fields)) hello_request)
      = Some r /\ status_code r = 200 /\
      json r = Some data /\
      extract_video_url data = PyStr "https://v/a.mp4")).
Proof.
  apply (video_result_origin (answering 200 (Some video_all_fields))
           hello_request
           {| v_job_id := "job_vid_4"; video_url := "https://v/a.mp4";
              v_provider := "key.ai:veo-3.1" |}
           [video_call (answering 200 (Some video_all_fields))
              hello_request]).
  reflexivity.
Defined.

(** ** What extraction lets through *)

Lemma url_fields_truthy (l : list pyval) :
  Forall (fun v => truthy v = true) (url_fields l).
Proof.
  unfold url_fields. apply Forall_forall. intros v Hin.
  apply in_map_iff in Hin as [x [<- Hx]].
  apply filter_In in Hx as [_ Hx]. now apply andb_prop in Hx as [_ Hx].
Qed.

Lemma extract_image_urls_truthy (data : pyval) :
  Forall (fun v => truthy v = true) (extract_image_urls data).
Proof.
  rewrite extract_image_urls_cases.
  destruct (shape_present "images" data); unfold shape_urls;
    destruct data; try constructor;
    match goal with |- context [lookup ?k ?d] =>
      destruct (lookup k d) as [[]|] end;
    try constructor; apply url_fields_truthy.
Qed.

Lemma Forall_take {A : Type} (P : A -> Prop) (n : nat) (l : list A) :
  Forall P l -> Forall P (firstn n l).
Proof.
  intros H. revert n. induction H as [|x l Hx Hl IH]; intros [|n]; simpl;
    constructor; auto.
Qed.

Lemma url_fields_all (l : list pyval) :
  Forall (fun x => isinstance_dict x = true /\ truthy (get x "url") = true) l ->
  url_fields l = map (fun x => get x "url") l.
Proof.
  unfold url_fields. intros H. f_equal.
  induction H as [|x l [Hd Hu] Hl IH]; simpl; [reflexivity|].
  now rewrite Hd, Hu, IH.
Qed.

Lemma url_fields_length (l : list pyval) :
  (List.length (url_fields l) <= List.length l)%nat.
Proof.
  unfold url_fields. rewrite length_map.
  induction l as [|x l IH]; simpl; [lia|].
  destruct (_ && _); simpl; lia.
Qed.

(** X8. From the list under ["images"], extraction keeps, in order, the
    ["url"] of every entry that is an object with a truthy ["url"] and
    drops the other entries: what it yields is never falsy (no [None], no
    empty string), is never longer than the list, and is the ["url"] of
    every entry when all entries qualify. *)
Theorem extraction_keeps_truthy_urls (d : list (string * pyval))
    (l : list pyval) :
  lookup "images" d = Some (PyList l) ->
  Forall (fun v => truthy v = true) (extract_image_urls (PyDict d)) /\
  (List.length (extract_image_urls (PyDict d)) <= List.length l)%nat /\
  (Forall (fun x => isinstance_dict x = true /\
                    truthy (get x "url") = true) l ->
   extract_image_urls (PyDict d) = map (fun x => get x "url") l) /\
  (forall l1 x l2,
     l = (l1 ++ x :: l2)%list ->
     isinstance_dict x && truthy (get x "url") = false ->
     extract_image_urls (PyDict d)
     = extract_image_urls (PyDict [("images", PyList (l1 ++ l2)%list)])).
Proof.
  intros Hl.
  assert (E : extract_image_urls (PyDict d) = url_fields l).
  { rewrite extract_image_urls_cases. unfold shape_present, shape_urls.
    now rewrite Hl. }
  rewrite E. split; [apply url_fields_truthy|].
  split; [apply url_fields_length|].
  split; [apply url_fields_all|].
  intros l1 x l2 -> Hx.
  rewrite extract_image_urls_cases. simpl.
  unfold url_fields. rewrite !filter_app. simpl. now rewrite Hx.
Qed.

Lemma extraction_keeps_truthy_urls_witness :
  extract_image_urls
    (PyDict [("images", PyList [PyDict [("url", PyStr "u1")]; PyStr "x";
                                PyDict [("url", PyStr "u2")]])])
  = extract_image_urls
      (PyDict [("images", PyList [PyDict [("url", PyStr "u1")];
                                  PyDict [("url", PyStr "u2")]])]).
Proof.
  apply (proj2 (proj2 (proj2
           (extraction_keeps_truthy_urls
              [("images", PyList [PyDict [("url", PyStr "u1")]; PyStr "x";
                                  PyDict [("url", PyStr "u2")]])]
              [PyDict [("url", PyStr "u1")]; PyStr "x";
               PyDict [("url", PyStr "u2")]] eq_refl)))
           [PyDict [("url", PyStr "u1")]] (PyStr "x")
           [PyDict [("url", PyStr "u2")]]); reflexivity.
Defined.

Lemma picsum_url_nonempty (seed : string) (i : Z) : picsum_url seed i <> "".
Proof. unfold picsum_url. simpl. discriminate. Qed.

(** X9. Every result [generate_images] returns for a valid request holds
    at least one image URL and no empty one, and its provider tag tells
    where the URLs come from: ["mock"] goes with the placeholders,
    ["key.ai:nano-banana"] with the first [count] URLs extracted from a
    200 reply obtained with a credential. *)
Theorem image_result_origin (rt : Runtime) (req : ImageGenRequest)
    (res : ImageGenResponse) (log : list http_request) :
  valid_image_request req ->
  run (generate_images rt req) = (inr res, log) ->
  images res <> [] /\
  Forall (fun u => u <> "") (images res) /\
  ((provider res = "mock" /\ images res = mock_urls req) \/
   (provider res = "key.ai:nano-banana" /\
    exists r data,
      configured rt = true /\
      keyai rt (image_call rt req) = Some r /\ status_code r = 200 /\
      json r = Some data /\
      map PyStr (images res)
      = firstn (Z.to_nat (count req)) (extract_image_urls data))).
Proof.
  intros Hv Hrun.
  destruct (generate_images_returns rt req res log Hv Hrun)
    as [[Hm Hp]|[r [data [Hk [Hr [Hs [Hj [Himg [Hne Hp]]]]]]]]].
  - split; [|split; [|left; now split]].
    + intros E. apply (f_equal (@List.length string)) in E.
      rewrite Hm, mock_urls_length in E. destruct Hv as [_ Hc].
      simpl in E. lia.
    + rewrite Hm. unfold mock_urls. apply Forall_forall. intros u Hin.
      apply in_map_iff in Hin as [i [<- _]]. apply picsum_url_nonempty.
  - split; [assumption|].
    split; [|right; split; [assumption|]; exists r, data; now repeat split].
    pose proof (Forall_take _ (Z.to_nat (count req)) _
                  (extract_image_urls_truthy data)) as Ht.
    rewrite <- Himg in Ht. rewrite Forall_map in Ht.
    eapply Forall_impl; [|exact Ht]. intros u Hu ->. discriminate.
Qed.

Lemma image_result_origin_witness :
  ["u1"; "u2"] <> [] /\
  Forall (fun u => u <> "") ["u1"; "u2"] /\
  (("key.ai:nano-banana" = "mock" /\ ["u1"; "u2"] = mock_urls (cat_request 2))
   \/
   ("key.ai:nano-banana" = "key.ai:nano-banana" /\
    exists r data,
      configured (answering 200 (Some three_urls)) = true /\
      keyai (answering 200 (Some three_urls))
        (image_call (answering 200 (Some three_urls)) (cat_request 2))
      = Some r /\ status_code r = 200 /\
      json r = Some data /\
      map PyStr ["u1"; "u2"]
      = firstn (Z.to_nat 2) (extract_image_urls data))).
Proof.
  apply (image_result_origin (answering 200 (Some three_urls))
           (cat_request 2)
           {| job_id := "job_img_7"; images := ["u1"; "u2"];
              provider := "key.ai:nano-banana" |}
           [image_call (answering 200 (Some three_urls)) (cat_request 2)]).
  - unfold valid_image_request; simpl; lia.
  - reflexivity.
Defined.

(** ** Request bodies *)

(** X10. A video request without a script, with a script of fewer than 3
    characters, or with a duration outside [4,30] ends in a validation
    error: no result is produced and the provider is not called. *)
Theorem invalid_video_request_rejected (rt : Runtime) (b : VideoGenBody) :
  body_script b = None \/
  (exists s, body_script b = Some s /\ (len s < 3)%nat) \/
  with_default 8 (body_duration_seconds b) < 4 \/
  30 < with_default 8 (body_duration_seconds b) ->
  run (post_generate_video rt b) = (inl RequestValidationError, []).
Proof.
  intros H. unfold run, post_generate_video, VideoGenRequest_validate.
  destruct (body_script b) as [s|] eqn:Hs; [|reflexivity].
  assert (E : min_length 3 s
              && ge_le 4 30 (with_default 8 (body_duration_seconds b))
              = false).
  { unfold min_length, ge_le.
    destruct H as [H|[[s' [H1 H2]]|[H|H]]]; [discriminate| | |].
    - inversion H1; subst. apply andb_false_intro1, Nat.leb_gt, H2.
    - apply andb_false_intro2, andb_false_intro1, Z.leb_gt, H.
    - apply andb_false_intro2, andb_false_intro2, Z.leb_gt, H. }
  now rewrite E.
Qed.

Lemma invalid_video_request_rejected_witness :
  run (post_generate_video (answering 200 (Some video_all_fields))
         {| body_script := Some "hello world"; body_aspect_ratio := None;
            body_duration_seconds := Some 3; body_voice := None;
            body_tone := None; body_video_references := None |})
  = (inl RequestValidationError, []).
Proof.
  apply invalid_video_request_rejected. right; right; left. simpl. lia.
Defined.

(** X11. An image request that leaves [count] out asks for 10 images:
    without a credential, a body with a prompt of at least 3 characters, no
    count and well-formed references gets exactly 10 placeholder URLs. *)
Theorem image_count_defaults_to_10 (rt : Runtime) (b : ImageGenBody)
    (p : string) :
  body_prompt b = Some p -> (3 <= len p)%nat ->
  body_count b = None ->
  urls_ok rt (body_references b) = true ->
  configured rt = false ->
  exists r,
    run (post_generate_images rt b) = (inr r, []) /\
    List.length (images r) = 10%nat /\
    nth_error (images r) 9
    = Some (picsum_url (replace " " "+" (take 40 p)) 9) /\
    provider r = "mock".
Proof.
  intros Hp Hlen Hc Hrefs Hk.
  unfold run, post_generate_images, ImageGenRequest_validate.
  rewrite Hp, Hc, Hrefs. unfold min_length.
  apply Nat.leb_le in Hlen. rewrite Hlen. simpl.
  eexists. split.
  { apply generate_images_fallback.
    now rewrite (image_block_unconfigured rt _ Hk). }
  cbn [images provider]. unfold mock_urls. cbn [prompt count].
  unfold seed_of. rewrite take_replace by reflexivity.
  split; [reflexivity|]. split; reflexivity.
Qed.

Lemma image_count_defaults_to_10_witness :
  exists r,
    run (post_generate_images offline
           {| body_prompt := Some "a cat in space"; body_count := None;
              body_style := None; body_references := None |})
    = (inr r, []) /\
    List.length (images r) = 10%nat /\
    nth_error (images r) 9
    = Some "https://picsum.photos/seed/a+cat+in+space-9/768/1024" /\
    provider r = "mock".
Proof.
  apply (image_count_defaults_to_10 offline _ "a cat in space");
    try reflexivity. simpl. lia.
Defined.

(** X13. The video defaults reach the provider: for a body that leaves the
    aspect ratio and the duration out, the payload of the one call carries
    ["9:16"] and 8, next to the script and the model ["veo-3.1"], and the
    references as a list even when there are none. *)
Theorem video_defaults_in_payload (rt : Runtime) (b : VideoGenBody)
    (s : string) :
  body_script b = Some s -> (3 <= len s)%nat ->
  body_aspect_ratio b = None -> body_duration_seconds b = None ->
  urls_ok rt (body_video_references b) = true ->
  configured rt = true ->
  exists rq,
    snd (run (post_generate_video rt b)) = [rq] /\
    rq_timeout rq = 120 /\
    get (rq_json rq) "model" = PyStr "veo-3.1" /\
    get (get (rq_json rq) "input") "script" = PyStr s /\
    get (get (rq_json rq) "input") "aspect_ratio" = PyStr "9:16" /\
    get (get (rq_json rq) "input") "duration" = PyInt 8 /\
    isinstance_list (get (get (rq_json rq) "input") "references") = true.
Proof.
  intros Hs Hlen Ha Hd Hrefs Hk.
  unfold run, post_generate_video, VideoGenRequest_validate.
  rewrite Hs, Ha, Hd, Hrefs. unfold min_length.
  apply Nat.leb_le in Hlen. rewrite Hlen. simpl.
  eexists. split.
  { apply (generate_video_log rt _ _ _ (video_block_configured rt _ Hk)). }
  simpl. repeat split.
  destruct (body_video_references b) as [[|u l]|]; reflexivity.
Qed.

Lemma video_defaults_in_payload_witness :
  exists rq,
    snd (run (post_generate_video unreachable
                {| body_script := Some "hello world";
                   body_aspect_ratio := None;
                   body_duration_seconds := None; body_voice := None;
                   body_tone := None; body_video_references := None |}))
    = [rq] /\
    rq_url rq = "https://api.key.ai/v1/video/generate" /\
    get (get (rq_json rq) "input") "aspect_ratio" = PyStr "9:16" /\
    get (get (rq_json rq) "input") "duration" = PyInt 8.
Proof.
  destruct (video_defaults_in_payload unreachable
              {| body_script := Some "hello world";
                 body_aspect_ratio := None;
                 body_duration_seconds := None; body_voice := None;
                 body_tone := None; body_video_references := None |}
              "hello world" eq_refl)
    as [rq [Hrq [_ [_ [_ [Ha [Hd _]]]]]]]; try reflexivity.
  - simpl. lia.
  - exists rq. repeat split; try assumption.
    simpl in Hrq. inversion Hrq. reflexivity.
Defined.

(** ** Identifiers and placeholders *)

(** X14. Within one process the identifier of an image job depends on the
    prompt only: two results for the same prompt carry the same [job_id],
    whatever the count, the style, the references and the provider's
    answers. *)
Theorem job_id_depends_on_prompt_only (rt : Runtime)
    (req1 req2 : ImageGenRequest) (r1 r2 : ImageGenResponse)
    (log1 log2 : list http_request) :
  prompt req1 = prompt req2 ->
  run (generate_images rt req1) = (inr r1, log1) ->
  run (generate_images rt req2) = (inr r2, log2) ->
  job_id r1 = job_id r2.
Proof.
  intros Hp H1 H2.
  rewrite (generate_images_job_id _ _ _ _ H1),
    (generate_images_job_id _ _ _ _ H2).
  unfold image_job_id. now rewrite Hp.
Qed.

Lemma job_id_depends_on_prompt_only_witness :
  job_id {| job_id := "job_img_7"; images := ["u1"; "u2"];
            provider := "key.ai:nano-banana" |}
  = job_id {| job_id := "job_img_7"; images := ["u1"; "u2"; "u3"];
              provider := "key.ai:nano-banana" |}.
Proof.
  apply (job_id_depends_on_prompt_only (answering 200 (Some three_urls))
           (cat_request 2) (cat_request 5) _ _
           [image_call (answering 200 (Some three_urls)) (cat_request 2)]
           [image_call (answering 200 (Some three_urls)) (cat_request 5)]);
    reflexivity.
Defined.

(** X15. An image job and a video job never share an identifier, not even
    for the same text. *)
Theorem image_and_video_job_ids_differ (rt1 rt2 : Runtime)
    (ireq : ImageGenRequest) (vreq : VideoGenRequest)
    (r : ImageGenResponse) (v : VideoGenResponse)
    (log1 log2 : list http_request) :
  run (generate_images rt1 ireq) = (inr r, log1) ->
  run (generate_video rt2 vreq) = (inr v, log2) ->
  job_id r <> v_job_id v.
Proof.
  intros H1 H2.
  rewrite (generate_images_job_id _ _ _ _ H1),
    (generate_video_job_id _ _ _ _ H2).
  unfold image_job_id, video_job_id. simpl. discriminate.
Qed.

Lemma image_and_video_job_ids_differ_witness :
  "job_img_4" <> "job_vid_4".
Proof.
  apply (image_and_video_job_ids_differ offline offline
           {| prompt := "hello world"; count := 1; style := None;
              references := None |}
           hello_request
           {| job_id := "job_img_4";
              images :=
                ["https://picsum.photos/seed/hello+world-0/768/1024"];
              provider := "mock" |}
           {| v_job_id := "job_vid_4"; video_url := demo_video;
              v_provider := "mock" |} [] []); reflexivity.
Defined.

(** X16. The placeholders see the prompt only through its first 40
    characters, spaces read as ["+"]: without a credential, two requests
    with the same count whose prompts agree there get the same image
    URLs. *)
Theorem placeholders_collide_on_seed (rt : Runtime)
    (req1 req2 : ImageGenRequest) :
  replace " " "+" (take 40 (prompt req1))
  = replace " " "+" (take 40 (prompt req2)) ->
  count req1 = count req2 ->
  configured rt = false ->
  exists r1 r2,
    run (generate_images rt req1) = (inr r1, []) /\
    run (generate_images rt req2) = (inr r2, []) /\
    images r1 = images r2.
Proof.
  intros Hs Hc Hk. do 2 eexists. split; [|split].
  - apply generate_images_fallback.
    now rewrite (image_block_unconfigured rt req1 Hk).
  - apply generate_images_fallback.
    now rewrite (image_block_unconfigured rt req2 Hk).
  - simpl. unfold mock_urls, seed_of.
    now rewrite !take_replace, Hs, Hc by reflexivity.
Qed.

Lemma placeholders_collide_on_seed_witness :
  exists r1 r2,
    run (generate_images offline
           {| prompt := "a cat in space, painted in oil on a large canvas";
              count := 2; style := None; references := None |})
    = (inr r1, []) /\
    run (generate_images offline
           {| prompt := "a+cat in+space, painted in oil on a larg";
              count := 2; style := None; references := None |})
    = (inr r2, []) /\
    images r1 = images r2.
Proof.
  apply (placeholders_collide_on_seed offline
           {| prompt := "a cat in space, painted in oil on a large canvas";
              count := 2; style := None; references := None |}
           {| prompt := "a+cat in+space, painted in oil on a larg";
              count := 2; style := None; references := None |});
    [vm_compute; reflexivity | reflexivity | reflexivity].
Defined.

Lemma firstn_seq_le (n m s : nat) :
  (n <= m)%nat -> firstn n (seq s m) = seq s n.
Proof.
  revert m s. induction n as [|n IH]; intros [|m] s H; simpl;
    try reflexivity; try lia.
  rewrite IH; [reflexivity | lia].
Qed.

(** X17. Asking for fewer placeholders gives a prefix: for one prompt the
    placeholder URLs of a count [n] are the first [n] of those of any
    larger count. *)
Theorem placeholders_prefix (rt : Runtime) (req1 req2 : ImageGenRequest) :
  prompt req1 = prompt req2 ->
  0 <= count req1 <= count req2 ->
  configured rt = false ->
  exists r1 r2,
    run (generate_images rt req1) = (inr r1, []) /\
    run (generate_images rt req2) = (inr r2, []) /\
    images r1 = firstn (Z.to_nat (count req1)) (images r2).
Proof.
  intros Hp Hc Hk. do 2 eexists. split; [|split].
  - apply generate_images_fallback.
    now rewrite (image_block_unconfigured rt req1 Hk).
  - apply generate_images_fallback.
    now rewrite (image_block_unconfigured rt req2 Hk).
  - simpl. unfold mock_urls, range. rewrite Hp.
    rewrite !firstn_map, firstn_seq_le by lia. reflexivity.
Qed.

Lemma placeholders_prefix_witness :
  exists r1 r2,
    run (generate_images offline (cat_request 2)) = (inr r1, []) /\
    run (generate_images offline (cat_request 5)) = (inr r2, []) /\
    images r1 = firstn 2 (images r2).
Proof.
  apply (placeholders_prefix offline (cat_request 2) (cat_request 5));
    [reflexivity | simpl; lia | reflexivity].
Defined.

(** ** The status probe *)

(** X18. [test_database] always answers, with the backend reported as
    running and at most 10 collections; its [database_url] and
    [database_name] fields report only whether the environment variables
    [DATABASE_URL] and [DATABASE_NAME] are set (to a non-empty value):
    what the import found, the name of the database included, never shows
    in them. *)
Theorem status_reports_environment_only (rt : Runtime)
    (imp : database_import) :
  backend (test_database rt imp) = "✅ Running" /\
  database_url (test_database rt imp)
  = PyStr (if env_set rt "DATABASE_URL" then "✅ Set" else "❌ Not Set") /\
  database_name (test_database rt imp)
  = PyStr (if env_set rt "DATABASE_NAME" then "✅ Set" else "❌ Not Set") /\
  (List.length (collections (test_database rt imp)) <= 10)%nat.
Proof.
  unfold test_database.
  destruct imp as [|msg| |db]; simpl; try (repeat split; lia).
  destruct (db_name db) as [|v|msg]; simpl;
    try (repeat split; lia);
    (destruct (db_list_collection_names db) as [msg|names]; simpl;
     [repeat split; lia|]);
    (repeat split; exact (firstn_le_length 10 names)).
Qed.

(** X19. The probe reports ["Connected & Working"] exactly when the
    database object was imported, reading its name did not raise and its
    collections could be listed; it then shows the first 10 collection
    names and the status ["Connected"]. *)
Theorem working_database_reported (rt : Runtime) (imp : database_import) :
  database (test_database rt imp) = "✅ Connected & Working" <->
  exists db names,
    imp = DbObject db /\
    (forall msg, db_name db <> AttributeRaises msg) /\
    db_list_collection_names db = inr names /\
    collections (test_database rt imp) = firstn 10 names /\
    connection_status (test_database rt imp) = "Connected".
Proof.
  split.
  - unfold test_database.
    destruct imp as [|msg| |db]; simpl; try discriminate.
    destruct (db_name db) as [|v|msg] eqn:Hn; simpl; try discriminate;
      (destruct (db_list_collection_names db) as [msg|names] eqn:Hl; simpl;
       [discriminate|]);
      intros _; exists db, names; rewrite Hn;
      (repeat split; try reflexivity; try discriminate; try assumption).
  - intros [db [names [-> [Hn [Hl _]]]]].
    unfold test_database. rewrite Hl.
    destruct (db_name db) as [|v|msg]; try reflexivity.
    now destruct (Hn msg).
Qed.

Lemma working_database_reported_witness :
  exists db names,
    DbObject twelve_collections = DbObject db /\
    (forall msg, db_name db <> AttributeRaises msg) /\
    db_list_collection_names db = inr names /\
    collections (test_database offline (DbObject twelve_collections))
    = firstn 10 names /\
    connection_status (test_database offline (DbObject twelve_collections))
    = "Connected".
Proof.
  apply (proj1 (working_database_reported offline
                  (DbObject twelve_collections))).
  reflexivity.
Defined.

(** X20. The probe reports the status ["Connected"] exactly when the
    database object was imported and reading its name did not raise, also
    when listing the collections then fails: in that case the [database]
    field carries the first 50 characters of the failure's message and no
    collection is shown. *)
Theorem connected_status_reported (rt : Runtime) (imp : database_import) :
  (connection_status (test_database rt imp) = "Connected" <->
   exists db, imp = DbObject db /\
              forall msg, db_name db <> AttributeRaises msg) /\
  (forall db msg,
     imp = DbObject db ->
     (forall m, db_name db <> AttributeRaises m) ->
     db_list_collection_names db = inl msg ->
     database (test_database rt imp)
     = "⚠️  Connected but Error: " ++ take 50 msg /\
     collections (test_database rt imp) = []).
Proof.
  split; [split|].
  - unfold test_database.
    destruct imp as [|msg| |db]; simpl; try discriminate.
    destruct (db_name db) as [|v|msg] eqn:Hn; simpl; try discriminate;
      intros _; exists db; rewrite Hn; split; try reflexivity; discriminate.
  - intros [db [-> Hn]]. unfold test_database.
    destruct (db_name db) as [|v|msg]; [| |now destruct (Hn msg)];
      destruct (db_list_collection_names db); reflexivity.
  - intros db msg -> Hn Hl. unfold test_database. rewrite Hl.
    destruct (db_name db) as [|v|m]; [| |now destruct (Hn m)];
      split; reflexivity.
Qed.

Lemma connected_status_reported_witness :
  database (test_database offline (DbObject failing_listing))
  = "⚠️  Connected but Error: server selection timed out" /\
  collections (test_database offline (DbObject failing_listing)) = [].
Proof.
  apply (proj2 (connected_status_reported offline
                  (DbObject failing_listing))
           failing_listing "server selection timed out");
    [reflexivity | discriminate | reflexivity].
Defined.

(** ** Subscriptions *)

(** X21. [subscribe] succeeds exactly for the plans ["Free"], ["Creator"]
    and ["Pro"], spelled so: it then answers with the status ["ok"], the
    plan in the message and the email as given ([None] when there is
    none); any other plan raises the HTTP error 400 ["Invalid plan"]. *)
Theorem subscribe_accepts_exactly_the_plans (req : SubscribeRequest) :
  (plan req = "Free" \/ plan req = "Creator" \/ plan req = "Pro" ->
   subscribe req
   = inr (PyDict [("status", PyStr "ok");
                  ("message", PyStr ("Subscribed to " ++ plan req));
                  ("email", match email req with
                            | Some e => PyStr e
                            | None => PyNone
                            end)])) /\
  (~ (plan req = "Free" \/ plan req = "Creator" \/ plan req = "Pro") ->
   subscribe req
   = inl {| exc_status_code := 400; exc_detail := "Invalid plan" |}).
Proof.
  unfold subscribe, plans. simpl existsb.
  destruct (String.eqb_spec (plan req) "Free") as [E1|E1];
    destruct (String.eqb_spec (plan req) "Creator") as [E2|E2];
    destruct (String.eqb_spec (plan req) "Pro") as [E3|E3];
    simpl; split; intros H; try reflexivity; try tauto.
Qed.

Lemma subscribe_accepts_exactly_the_plans_witness :
  subscribe {| plan := "Pro"; email := Some "a@b.c" |}
  = inr (PyDict [("status", PyStr "ok");
                 ("message", PyStr "Subscribed to Pro");
                 ("email", PyStr "a@b.c")]) /\
  subscribe {| plan := "pro"; email := None |}
  = inl {| exc_status_code := 400; exc_detail := "Invalid plan" |}.
Proof.
  split.
  - apply (proj1 (subscribe_accepts_exactly_the_plans
                    {| plan := "Pro"; email := Some "a@b.c" |})).
    right; right; reflexivity.
  - apply (proj2 (subscribe_accepts_exactly_the_plans
                    {| plan := "pro"; email := None |})).
    intros [H|[H|H]]; discriminate.
Defined.
